(* ===================================================================== *)
(*  backend/main.py : speech upload pipeline                             *)
(*                                                                       *)
(*  Shallow embedding of the request pipeline                            *)
(*     audio -> Whisper STT -> language gate -> grammar correction       *)
(*           -> Piper TTS -> HTTP response                               *)
(*  together with the lazily filled cache of Piper voices.               *)
(*  Whisper, LanguageTool, Piper, the temporary file and the upload     *)
(*  stream are outside services; the print statements are left out.     *)
(*  Of Starlette the model keeps that a JSONResponse renders its content *)
(*  when it is built, of the wave module the header a writer emits.      *)
(* ===================================================================== *)

From Stdlib Require Import NArith ZArith Lia.
From Stdlib.Strings Require Import Ascii String Byte.
From stdpp Require Import base option list gmap.

Open Scope N_scope.

(* ===================================================================== *)
(*  Python values                                                        *)
(* ===================================================================== *)

(** A Python [str] is a sequence of Unicode code points. *)
Definition pychar := N.
Definition pystr := list pychar.

(** A Python [bytes] object. *)
Definition bytes := list byte.

(** ASCII literals of the source, written as Rocq strings. *)
Definition py (s : string) : pystr := map N_of_ascii (list_ascii_of_string s).

(** [str.isascii]: every code point is below U+0080. *)
Definition is_ascii_char (c : pychar) : bool := c <? 128.
Definition isascii (s : pystr) : bool := forallb is_ascii_char s.

(** A lone surrogate, U+D800..U+DFFF: a code point a [str] may hold and
    that has no UTF-8 encoding. *)
Definition is_surrogate (c : pychar) : bool := (55296 <=? c) && (c <=? 57343).

(** [s.encode("utf-8")] succeeds. *)
Definition utf8_encodable (s : pystr) : bool :=
  forallb (fun c => negb (is_surrogate c)) s.

(** Lower-casing of one ASCII code point: 'A'..'Z' move to 'a'..'z'. *)
Definition ascii_lower (c : pychar) : pychar :=
  if (65 <=? c) && (c <=? 90) then c + 32 else c.

(** Upper-casing of one ASCII code point, used to state case-insensitivity. *)
Definition ascii_upper (c : pychar) : pychar :=
  if (97 <=? c) && (c <=? 122) then c - 32 else c.

(** [str.startswith] with a single prefix. *)
Fixpoint startswith (s prefix : pystr) {struct prefix} : bool :=
  match prefix, s with
  | [], _ => true
  | _ :: _, [] => false
  | p :: prefix', c :: s' => (c =? p) && startswith s' prefix'
  end.

(** [_PyUnicode_IsWhitespace] of CPython: the code points removed by
    [str.strip()] when it is called without argument. *)
Definition isspace (c : pychar) : bool :=
  ((9 <=? c) && (c <=? 13)) || ((28 <=? c) && (c <=? 32))
  || (c =? 133) || (c =? 160) || (c =? 5760)
  || ((8192 <=? c) && (c <=? 8202))
  || (c =? 8232) || (c =? 8233) || (c =? 8239) || (c =? 8287) || (c =? 12288).

(** [str.lstrip()], [str.rstrip()] and [str.strip()]. *)
Fixpoint lstrip (s : pystr) : pystr :=
  match s with
  | c :: s' => if isspace c then lstrip s' else s
  | [] => []
  end.

Definition rstrip (s : pystr) : pystr := reverse (lstrip (reverse s)).

Definition strip (s : pystr) : pystr := rstrip (lstrip s).

(** First and last code point of a string, when it has one. *)
Definition first_char (s : pystr) : option pychar := head s.
Definition last_char (s : pystr) : option pychar := last s.

(** A string carries no leading and no trailing whitespace. *)
Definition stripped (s : pystr) : Prop :=
  (forall c, first_char s = Some c -> isspace c = false) /\
  (forall c, last_char s = Some c -> isspace c = false).

(* ===================================================================== *)
(*  Exceptions, JSON values and HTTP responses                           *)
(* ===================================================================== *)

(** A raised Python exception (an instance of [Exception]): its class name
    and the text [str(e)] gives. *)
Record Exception := mkException { exc_class : pystr; exc_str : pystr }.

(** Result of running a piece of Python code: a value or a raised
    exception. *)
Inductive outcome (A : Type) : Type :=
| Ok (a : A)
| Raise (e : Exception).
Arguments Ok {A} a.
Arguments Raise {A} e.

Definition obind {A B} (r : outcome A) (f : A -> outcome B) : outcome B :=
  match r with
  | Ok a => f a
  | Raise e => Raise e
  end.

Definition is_ok {A} (r : outcome A) : bool :=
  match r with Ok _ => true | Raise _ => false end.

(** The JSON values the endpoint builds. *)
#[local] Set Warnings "-register-all".
Inductive json :=
| JNull
| JBool (b : bool)
| JStr (s : pystr)
| JObject (fields : list (pystr * json)).

(** [JSONResponse(status_code=.., content=..)] and
    [Response(content=.., media_type=.., headers=..)], with the arguments
    of the call.  (To the [headers] given, Starlette adds content-length
    and content-type on its own.) *)
Inductive HTTPResponse :=
| JSONResponse (status_code : N) (content : json)
| Response (content : bytes) (media_type : pystr) (headers : gmap pystr pystr).

(** [json.dumps(content, ensure_ascii=False, ...).encode("utf-8")], which
    Starlette runs when a [JSONResponse] is constructed, succeeds: no
    string of the content holds a lone surrogate. *)
Fixpoint json_encodable (j : json) : bool :=
  match j with
  | JNull => true
  | JBool _ => true
  | JStr s => utf8_encodable s
  | JObject fields =>
      forallb (fun kv => match kv with
                         | (k, v) => utf8_encodable k && json_encodable v
                         end) fields
  end.

(** [str(n)] and ['{:04x}'.format(n)]. *)
Definition digit_char (d : N) : pychar := if d <? 10 then 48 + d else 87 + d.

Fixpoint digits_from (fuel : nat) (n : N) (acc : pystr) : pystr :=
  match fuel with
  | O => acc
  | S fuel' =>
      let acc' := digit_char (n mod 10) :: acc in
      if n / 10 =? 0 then acc' else digits_from fuel' (n / 10) acc'
  end.

Definition decimal (n : N) : pystr := digits_from (S (N.to_nat (N.log2 n))) n [].

Definition hex4 (n : N) : pystr :=
  [digit_char (n / 4096 mod 16); digit_char (n / 256 mod 16);
   digit_char (n / 16 mod 16); digit_char (n mod 16)].

(** [json.dumps(content, ensure_ascii=False, separators=(",", ":"))] on the
    contents the endpoint builds: strings are quoted, with the quote, the
    backslash and the control characters escaped. *)
Definition json_escape (c : pychar) : pystr :=
  if c =? 34 then [92; 34]
  else if c =? 92 then [92; 92]
  else if c =? 8 then [92; 98]
  else if c =? 12 then [92; 102]
  else if c =? 10 then [92; 110]
  else if c =? 13 then [92; 114]
  else if c =? 9 then [92; 116]
  else if c <? 32 then [92; 117] ++ hex4 c
  else [c].

Definition json_quote (s : pystr) : pystr :=
  [34] ++ flat_map json_escape s ++ [34].

Fixpoint json_dumps (j : json) : pystr :=
  match j with
  | JNull => py "null"
  | JBool true => py "true"
  | JBool false => py "false"
  | JStr s => json_quote s
  | JObject fields =>
      let item kv := match kv with
                     | (k, v) => json_quote k ++ py ":" ++ json_dumps v
                     end in
      py "{"
      ++ match fields with
         | [] => []
         | kv :: rest =>
             item kv ++ flat_map (fun kv' => py "," ++ item kv') rest
         end
      ++ py "}"
  end.

(** The [UnicodeEncodeError] of [s.encode("utf-8")]: it names the first run
    of lone surrogates in [s]. *)
Fixpoint surrogate_run (s : pystr) : N :=
  match s with
  | c :: rest => if is_surrogate c then 1 + surrogate_run rest else 0
  | [] => 0
  end.

Fixpoint first_surrogate (s : pystr) (position : N) : option (N * N * pychar) :=
  match s with
  | [] => None
  | c :: rest =>
      if is_surrogate c then Some (position, position + surrogate_run rest, c)
      else first_surrogate rest (position + 1)
  end.

Definition UnicodeEncodeError_utf8 (s : pystr) : Exception :=
  mkException (py "UnicodeEncodeError")
    match first_surrogate s 0 with
    | Some (first, last, c) =>
        if first =? last
        then py "'utf-8' codec can't encode character '\u" ++ hex4 c
             ++ py "' in position " ++ decimal first
             ++ py ": surrogates not allowed"
        else py "'utf-8' codec can't encode characters in position "
             ++ decimal first ++ py "-" ++ decimal last
             ++ py ": surrogates not allowed"
    | None => []
    end.

(** Starlette's [Response] has status 200 unless told otherwise. *)
Definition status_of (r : HTTPResponse) : N :=
  match r with
  | JSONResponse status_code _ => status_code
  | Response _ _ _ => 200
  end.

(* ===================================================================== *)
(*  struct.pack and the wave module                                      *)
(* ===================================================================== *)

Definition byte_of_N (n : N) : byte := default x00 (Byte.of_N (n mod 256)).

(** Little-endian encoding on [width] bytes, and its inverse. *)
Fixpoint le_bytes (width : nat) (n : N) : bytes :=
  match width with
  | O => []
  | S k => byte_of_N n :: le_bytes k (n / 256)
  end.

Fixpoint le_value (bs : bytes) : N :=
  match bs with
  | [] => 0
  | b :: bs' => Byte.to_N b + 256 * le_value bs'
  end.

Definition struct_error_L : Exception :=
  mkException (py "struct.error")
    (py "'L' format requires 0 <= number <= 4294967295").

Definition struct_error_H : Exception :=
  mkException (py "struct.error")
    (py "'H' format requires 0 <= number <= 65535").

(** [struct.pack('<L', n)] and [struct.pack('<H', n)]: a value that does
    not fit the field (2^32 and 2^16 are the first that do not) raises
    [struct.error]. *)
Definition pack_L (n : N) : outcome bytes :=
  if n <? 4294967296 then Ok (le_bytes 4 n) else Raise struct_error_L.

Definition pack_H (n : N) : outcome bytes :=
  if n <? 65536 then Ok (le_bytes 2 n) else Raise struct_error_H.

Definition WAVE_FORMAT_PCM : N := 1.

(** A [wave.Wave_write] object over an in-memory buffer: the three format
    parameters and the frame data written so far.  The setters are those
    the source calls, on a fresh writer and with values they accept. *)
Record Wave_write := mkWave {
  nchannels : N;
  sampwidth : N;
  framerate : N;
  datawritten : bytes
}.

Definition wave_open_wb : Wave_write := mkWave 0 0 0 [].
Definition setnchannels (n : N) (f : Wave_write) : Wave_write :=
  mkWave n (sampwidth f) (framerate f) (datawritten f).
Definition setsampwidth (n : N) (f : Wave_write) : Wave_write :=
  mkWave (nchannels f) n (framerate f) (datawritten f).
Definition setframerate (n : N) (f : Wave_write) : Wave_write :=
  mkWave (nchannels f) (sampwidth f) n (datawritten f).
Definition writeframes (data : bytes) (f : Wave_write) : Wave_write :=
  mkWave (nchannels f) (sampwidth f) (framerate f) (datawritten f ++ data).

(** The 44-byte RIFF header [Wave_write] emits for [datalength] bytes of
    frames (its [_write_header], patched on close to the final length). *)
Definition wave_header (f : Wave_write) (datalength : N) : outcome bytes :=
  obind (pack_L (36 + datalength)) (fun riff_len =>
  obind (pack_L 16) (fun fmt_len =>
  obind (pack_H WAVE_FORMAT_PCM) (fun tag =>
  obind (pack_H (nchannels f)) (fun nch =>
  obind (pack_L (framerate f)) (fun rate =>
  obind (pack_L (nchannels f * framerate f * sampwidth f)) (fun byte_rate =>
  obind (pack_H (nchannels f * sampwidth f)) (fun block_align =>
  obind (pack_H (sampwidth f * 8)) (fun bits =>
  obind (pack_L datalength) (fun data_len =>
  Ok (list_byte_of_string "RIFF" ++ riff_len
      ++ list_byte_of_string "WAVE" ++ list_byte_of_string "fmt "
      ++ fmt_len ++ tag ++ nch ++ rate ++ byte_rate ++ block_align ++ bits
      ++ list_byte_of_string "data" ++ data_len)))))))))).

Definition wave_Error (message : string) : Exception :=
  mkException (py "wave.Error") (py message).

(** Content of the buffer once the writer is closed: the header for the
    format the writer has by then, and the frames.  A writer that was never
    given a format refuses ([_ensure_header_written]). *)
Definition wave_close (f : Wave_write) : outcome bytes :=
  if nchannels f =? 0 then Raise (wave_Error "# channels not specified")
  else if sampwidth f =? 0 then Raise (wave_Error "sample width not specified")
  else if framerate f =? 0 then Raise (wave_Error "sampling rate not specified")
  else
    obind (wave_header f (N.of_nat (length (datawritten f)))) (fun header =>
    Ok (header ++ datawritten f)).

(** What a reader finds in a canonical PCM WAV file. *)
Record wav_info := mkWavInfo {
  wav_channels : N;
  wav_bits_per_sample : N;
  wav_sample_rate : N;
  wav_data_size : N;
  wav_data : bytes
}.

Definition slice (start len : nat) (b : bytes) : bytes := take len (drop start b).

Fixpoint bytes_eqb (a b : bytes) : bool :=
  match a, b with
  | [], [] => true
  | x :: a', y :: b' => Byte.eqb x y && bytes_eqb a' b'
  | _, _ => false
  end.

Definition parse_wav (b : bytes) : option wav_info :=
  if bytes_eqb (slice 0 4 b) (list_byte_of_string "RIFF")
     && bytes_eqb (slice 8 4 b) (list_byte_of_string "WAVE")
     && bytes_eqb (slice 12 4 b) (list_byte_of_string "fmt ")
     && (le_value (slice 20 2 b) =? WAVE_FORMAT_PCM)
     && bytes_eqb (slice 36 4 b) (list_byte_of_string "data")
  then Some (mkWavInfo (le_value (slice 22 2 b)) (le_value (slice 34 2 b))
                       (le_value (slice 24 4 b)) (le_value (slice 40 4 b))
                       (drop 44 b))
  else None.

(* ===================================================================== *)
(*  CONFIG                                                               *)
(* ===================================================================== *)

Definition PIPER_MODELS : gmap pystr pystr :=
  <[py "tr" := py "models/tr_TR-fettah-medium.onnx"]>
  (<[py "de" := py "models/de_DE-thorsten-medium.onnx"]>
  (<[py "en" := py "models/en_US-kristin-medium.onnx"]> ∅)).

Definition DEFAULT_LANG : pystr := py "en".

(* ===================================================================== *)
(*  The effects of the program                                           *)
(* ===================================================================== *)

(** The two LanguageTool instances started at import time. *)
Inductive LanguageTool := lt_tool_en | lt_tool_de.

(** What a run leaves behind, most recent first: every call into an outside
    service with whether it returned ([ok]) or raised, and every entry into
    [correct_grammar] and [tts_with_piper]. *)
Inductive Event :=
| audio_read_ev (ok : bool)
| tempfile_write_ev (audio_bytes : bytes) (ok : bool)
| whisper_transcribe_ev (tmp_path : pystr) (ok : bool)
| correct_grammar_ev (text : pystr) (lang_key : option pystr)
| lt_check_ev (tool : LanguageTool) (text : pystr) (ok : bool)
| lt_correct_ev (text : pystr) (ok : bool)
| tts_with_piper_ev (text : pystr) (lang_key : pystr)
| PiperVoice_load_ev (model_path : pystr) (ok : bool)
| synthesize_wav_ev (text : pystr) (ok : bool).

(** The dict Whisper's [transcribe] returns, as far as the program reads
    it: the keys "text" and "language", either of which may be missing. *)
Record WhisperResult := mkWhisperResult {
  result_text : option pystr;
  result_language : option pystr
}.

(** [d.get(key, default)]. *)
Definition dict_get {A} (entry : option A) (dflt : A) : A := default dflt entry.

Definition KeyError (key : pystr) : Exception := mkException (py "KeyError") key.

Section Pipeline.

(** State of the services outside the program (file system, models, the
    LanguageTool server): they may answer differently from call to call. *)
Variable Env : Type.
(** A loaded [PiperVoice]; two handles are the same object when equal. *)
Variable PiperVoice : Type.
(** The [UploadFile] of the multipart form. *)
Variable UploadFile : Type.
(** The list of matches LanguageTool's [check] returns. *)
Variable Matches : Type.

(** [str.lower()] maps an ASCII code point on its own; for a code point
    outside ASCII CPython consults the Unicode database, and for capital
    sigma also the neighbouring characters.  That table is a parameter:
    [unicode_lower before c after] is the lower-case expansion of the
    non-ASCII code point [c] standing between [rev before] and [after]. *)
Variable unicode_lower : pystr -> pychar -> pystr -> pystr.

(** The outside services.  Each takes the state of the outside world and
    returns a value or raises. *)
Variable audio_read : UploadFile -> Env -> outcome bytes * Env.
Variable tempfile_write : bytes -> Env -> outcome pystr * Env.
Variable whisper_transcribe : pystr -> Env -> outcome WhisperResult * Env.
Variable lt_check : LanguageTool -> pystr -> Env -> outcome Matches * Env.
Variable lt_utils_correct : pystr -> Matches -> Env -> outcome pystr * Env.
Variable PiperVoice_load : pystr -> Env -> outcome PiperVoice * Env.
(** [voice.synthesize_wav(text, wav_file)]: the engine is handed the
    writer itself, so besides writing frames it may set the format anew
    before the first frame.  It gives back the writer as it leaves it. *)
Variable synthesize_wav :
  PiperVoice -> pystr -> Wave_write -> Env -> outcome Wave_write * Env.
(** The [UnicodeEncodeError] that rendering a JSON content raises when the
    content holds a lone surrogate. *)
Variable render_error : json -> Exception.

(** The process state: the outside world, the module-level dict
    [piper_voices], and the trace. *)
Record World := mkWorld {
  env : Env;
  piper_voices : gmap pystr PiperVoice;
  trace : list Event
}.

Definition M (A : Type) : Type := World -> outcome A * World.

Definition ret {A} (a : A) : M A := fun w => (Ok a, w).

Definition bind {A B} (m : M A) (f : A -> M B) : M B :=
  fun w =>
    match m w with
    | (Ok a, w') => f a w'
    | (Raise e, w') => (Raise e, w')
    end.

Definition raise {A} (e : Exception) : M A := fun w => (Raise e, w).

(** [try: body except Exception as e: handler(e)]. *)
Definition try_except {A} (body : M A) (handler : Exception -> M A) : M A :=
  fun w =>
    match body w with
    | (Ok a, w') => (Ok a, w')
    | (Raise e, w') => handler e w'
    end.

Definition enter (ev : Event) : M unit :=
  fun w => (Ok tt, mkWorld (env w) (piper_voices w) (ev :: trace w)).

(** A call into an outside service, recorded with its outcome. *)
Definition extcall {A} (ev : bool -> Event) (f : Env -> outcome A * Env) : M A :=
  fun w =>
    let '(r, env') := f (env w) in
    (r, mkWorld env' (piper_voices w) (ev (is_ok r) :: trace w)).

Definition lookup_voice (lang_key : pystr) : M (option PiperVoice) :=
  fun w => (Ok (piper_voices w !! lang_key), w).

Definition store_voice (lang_key : pystr) (voice : PiperVoice) : M unit :=
  fun w => (Ok tt, mkWorld (env w) (<[lang_key := voice]> (piper_voices w)) (trace w)).

Definition lift {A} (r : outcome A) : M A := fun w => (r, w).

(** The call [JSONResponse(status_code=.., content=..)]: the body is
    rendered at once, so the call raises when the content cannot be
    encoded. *)
Definition new_JSONResponse (status_code : N) (content : json)
  : outcome HTTPResponse :=
  if json_encodable content then Ok (JSONResponse status_code content)
  else Raise (render_error content).

Notation "'let*' x ':=' m 'in' k" := (bind m (fun x => k))
  (at level 10, x name, m at level 100, k at level 200, only parsing).

(* ------------------------------------------------------------------- *)
(*  HELPER FUNCTIONS                                                   *)
(* ------------------------------------------------------------------- *)

Fixpoint lower_from (before s : pystr) : pystr :=
  match s with
  | [] => []
  | c :: after =>
      (if is_ascii_char c then [ascii_lower c]
       else unicode_lower before c after)
      ++ lower_from (c :: before) after
  end.

Definition lower (s : pystr) : pystr := lower_from [] s.

Definition stt_with_whisper (audio_bytes : bytes) : M (pystr * pystr) :=
  let* tmp_path := extcall (tempfile_write_ev audio_bytes) (tempfile_write audio_bytes) in
  let* result := extcall (whisper_transcribe_ev tmp_path) (whisper_transcribe tmp_path) in
  let text := strip (dict_get (result_text result) (py "")) in
  let detected_lang := dict_get (result_language result) (py "en") in
  ret (text, detected_lang).

Definition detect_lang_for_tts (detected : pystr) : option pystr :=
  match detected with
  | [] => Some DEFAULT_LANG
  | _ =>
      let d := lower detected in
      if startswith d (py "en") then Some (py "en")
      else if startswith d (py "de") then Some (py "de")
      else if startswith d (py "tr") then Some (py "tr")
      else None
  end.

Definition correct_grammar (text : pystr) (lang_key : option pystr) : M pystr :=
  let* _ := enter (correct_grammar_ev text lang_key) in
  if bool_decide (lang_key = Some (py "en")) then
    let* matches := extcall (lt_check_ev lt_tool_en text) (lt_check lt_tool_en text) in
    let* corrected := extcall (lt_correct_ev text) (lt_utils_correct text matches) in
    ret corrected
  else if bool_decide (lang_key = Some (py "de")) then
    let* matches := extcall (lt_check_ev lt_tool_de text) (lt_check lt_tool_de text) in
    let* corrected := extcall (lt_correct_ev text) (lt_utils_correct text matches) in
    ret corrected
  else
    ret text.

(** The key [get_piper_voice] works with after its first two lines. *)
Definition effective_key (lang_key : pystr) : pystr :=
  match PIPER_MODELS !! lang_key with
  | Some _ => lang_key
  | None => DEFAULT_LANG
  end.

Definition get_piper_voice (lang_key : pystr) : M PiperVoice :=
  let lang_key := effective_key lang_key in
  let* cached := lookup_voice lang_key in
  match cached with
  | Some voice => ret voice
  | None =>
      let* model_path := lift (match PIPER_MODELS !! lang_key with
                               | Some p => Ok p
                               | None => Raise (KeyError lang_key)
                               end) in
      let* voice := extcall (PiperVoice_load_ev model_path) (PiperVoice_load model_path) in
      let* _ := store_voice lang_key voice in
      ret voice
  end.

Definition tts_with_piper (text : pystr) (lang_key : pystr) : M bytes :=
  let* _ := enter (tts_with_piper_ev text lang_key) in
  let* voice := get_piper_voice lang_key in
  let wav_file := setframerate 22050 (setsampwidth 2 (setnchannels 1 wave_open_wb)) in
  let* wav_file := extcall (synthesize_wav_ev text) (synthesize_wav voice text wav_file) in
  let* wav_bytes := lift (wave_close wav_file) in
  ret wav_bytes.

(* ------------------------------------------------------------------- *)
(*  ENDPOINT                                                           *)
(* ------------------------------------------------------------------- *)

(** The body of the [try] block of [upload_audio]. *)
Definition upload_audio_body (email : pystr) (audio : UploadFile) : M HTTPResponse :=
  let* audio_bytes := extcall audio_read_ev (audio_read audio) in
  let* stt := stt_with_whisper audio_bytes in
  let original_text := stt.1 in
  let detected_lang_raw := stt.2 in
  match detect_lang_for_tts detected_lang_raw with
  | None =>
      lift (new_JSONResponse 200 (JObject [
              (py "original_text", JStr original_text);
              (py "detected_lang_raw", JStr detected_lang_raw);
              (py "normalized_lang", JNull);
              (py "tts_available", JBool false)]))
  | Some tts_lang =>
      let* corrected_text := correct_grammar original_text (Some tts_lang) in
      let* corrected_wav := tts_with_piper corrected_text tts_lang in
      let headers : gmap pystr pystr := {[ py "X-Detected-Lang" := tts_lang ]} in
      let headers :=
        if isascii corrected_text
        then <[py "X-Corrected-Text" := corrected_text]> headers
        else headers in
      ret (Response corrected_wav (py "audio/wav") headers)
  end.

Definition upload_audio (email : pystr) (audio : UploadFile) : M HTTPResponse :=
  try_except (upload_audio_body email audio)
    (fun e => lift (new_JSONResponse 500 (JObject [(py "error", JStr (exc_str e))]))).

End Pipeline.

Arguments mkWorld {Env PiperVoice}.
Arguments env {Env PiperVoice}.
Arguments piper_voices {Env PiperVoice}.
Arguments trace {Env PiperVoice}.

(* ===================================================================== *)
(*  Observations on runs                                                 *)
(* ===================================================================== *)

Fixpoint count_events (p : Event -> bool) (tr : list Event) : nat :=
  match tr with
  | [] => 0%nat
  | ev :: tr' => ((if p ev then 1 else 0) + count_events p tr')%nat
  end.

(** [PiperVoice.load(model_path)] was called and returned a voice. *)
Definition is_successful_load (model_path : pystr) (ev : Event) : bool :=
  match ev with
  | PiperVoice_load_ev p true => bool_decide (p = model_path)
  | _ => false
  end.

(** [PiperVoice.load] was called, whatever came of it. *)
Definition is_load (ev : Event) : bool :=
  match ev with
  | PiperVoice_load_ev _ _ => true
  | _ => false
  end.

Definition successful_loads (model_path : pystr) (tr : list Event) : nat :=
  count_events (is_successful_load model_path) tr.

(** [PiperVoice.load(model_path)] was called, whatever came of it. *)
Definition is_load_of (model_path : pystr) (ev : Event) : bool :=
  match ev with
  | PiperVoice_load_ev p _ => bool_decide (p = model_path)
  | _ => false
  end.

Definition load_attempts (model_path : pystr) (tr : list Event) : nat :=
  count_events (is_load_of model_path) tr.


(** The text handed to [correct_grammar] is stripped. *)
Definition grammar_input_stripped (ev : Event) : Prop :=
  match ev with
  | correct_grammar_ev text _ => stripped text
  | _ => True
  end.

(** The JSON body of the text-only answer. *)
Definition text_only_body (original_text detected_lang_raw : pystr) : json :=
  JObject [(py "original_text", JStr original_text);
           (py "detected_lang_raw", JStr detected_lang_raw);
           (py "normalized_lang", JNull);
           (py "tts_available", JBool false)].

(** The JSON body of the failure answer. *)
Definition error_body (e : Exception) : json :=
  JObject [(py "error", JStr (exc_str e))].

(** The headers of the audio answer. *)
Definition audio_headers (tts_lang corrected_text : pystr) : gmap pystr pystr :=
  if isascii corrected_text
  then <[py "X-Corrected-Text" := corrected_text]> {[ py "X-Detected-Lang" := tts_lang ]}
  else {[ py "X-Detected-Lang" := tts_lang ]}.

(** Lookup of a field of a JSON object. *)
Fixpoint json_field (name : pystr) (fields : list (pystr * json)) : option json :=
  match fields with
  | [] => None
  | (k, v) :: rest => if bool_decide (k = name) then Some v else json_field name rest
  end.

Section Runs.

Variable Env PiperVoice UploadFile Matches : Type.
Variable unicode_lower : pystr -> pychar -> pystr -> pystr.
Variable audio_read : UploadFile -> Env -> outcome bytes * Env.
Variable tempfile_write : bytes -> Env -> outcome pystr * Env.
Variable whisper_transcribe : pystr -> Env -> outcome WhisperResult * Env.
Variable lt_check : LanguageTool -> pystr -> Env -> outcome Matches * Env.
Variable lt_utils_correct : pystr -> Matches -> Env -> outcome pystr * Env.
Variable PiperVoice_load : pystr -> Env -> outcome PiperVoice * Env.
Variable synthesize_wav :
  PiperVoice -> pystr -> Wave_write -> Env -> outcome Wave_write * Env.
Variable render_error : json -> Exception.

(** The events [w'] has on top of those of [w]. *)
Definition emitted (evs : list Event) (w w' : World Env PiperVoice) : Prop :=
  trace w' = evs ++ trace w.

(** Every handle in the cache sits under a configured key, and for each
    configured key the successful loads of its model number one if the
    key is cached and none otherwise. *)
Definition cache_consistent (w : World Env PiperVoice) : Prop :=
  (forall k v, piper_voices w !! k = Some v -> is_Some (PIPER_MODELS !! k)) /\
  (forall k model_path, PIPER_MODELS !! k = Some model_path ->
     successful_loads model_path (trace w) =
       match piper_voices w !! k with Some _ => 1%nat | None => 0%nat end).

(** Every event a step adds satisfies [P]. *)
Definition emits (P : Event -> Prop) (w w' : World Env PiperVoice) : Prop :=
  exists evs, emitted evs w w' /\ Forall P evs.

(** A cached handle stays where it is. *)
Definition cache_grows (w w' : World Env PiperVoice) : Prop :=
  forall k v, piper_voices w !! k = Some v -> piper_voices w' !! k = Some v.

(** The model of a cached key is not loaded again, nor is a load tried. *)
Definition no_reload (w w' : World Env PiperVoice) : Prop :=
  forall k model_path v,
    PIPER_MODELS !! k = Some model_path -> piper_voices w !! k = Some v ->
    load_attempts model_path (trace w') = load_attempts model_path (trace w).

Definition keeps_consistent (w w' : World Env PiperVoice) : Prop :=
  cache_grows w w' /\ (cache_consistent w -> cache_consistent w')
  /\ no_reload w w'.

(** Whatever the state [m] starts in, the state it ends in is related to
    it by [R], and a returned value satisfies [Q]. *)
Definition respects {A} (R : World Env PiperVoice -> World Env PiperVoice -> Prop)
    (Q : A -> Prop) (m : M Env PiperVoice A) : Prop :=
  forall w, R w (m w).2 /\ (forall a, (m w).1 = Ok a -> Q a).

(** What happens in one process lifetime: calls of [get_piper_voice] and
    requests are served one after the other, and the outside world may
    change in between. *)
Inductive step : World Env PiperVoice -> World Env PiperVoice -> Prop :=
| step_outside (w : World Env PiperVoice) (e : Env) :
    step w (mkWorld e (piper_voices w) (trace w))
| step_get (w : World Env PiperVoice) (lang_key : pystr) :
    step w (get_piper_voice Env PiperVoice PiperVoice_load lang_key w).2
| step_upload (w : World Env PiperVoice) (email : pystr) (audio : UploadFile) :
    step w (upload_audio Env PiperVoice UploadFile Matches unicode_lower
              audio_read tempfile_write whisper_transcribe lt_check
              lt_utils_correct PiperVoice_load synthesize_wav render_error
              email audio w).2.

(** The process starts with an empty cache. *)
Definition reachable (w : World Env PiperVoice) : Prop :=
  exists e : Env, rtc step (mkWorld e ∅ []) w.

End Runs.

Arguments emitted {Env PiperVoice}.
Arguments cache_consistent {Env PiperVoice}.
Arguments emits {Env PiperVoice}.
Arguments cache_grows {Env PiperVoice}.
Arguments no_reload {Env PiperVoice}.
Arguments keeps_consistent {Env PiperVoice}.
Arguments respects {Env PiperVoice A}.

(* ===================================================================== *)
(*  A small concrete deployment                                          *)
(* ===================================================================== *)

Module Demo.

(** The outside world is a counter of calls to [PiperVoice.load]; a
    voice handle is the value of the counter when it was loaded, so two
    loads never give the same handle.  The model files are missing while
    the counter is zero. *)
Definition Env := N.
Definition PiperVoice := N.
(** An upload is its content, or an unreadable stream. *)
Definition UploadFile := option bytes.
Definition Matches := unit.

Definition unicode_lower (before : pystr) (c : pychar) (after : pystr) : pystr := [c].

Definition audio_read (audio : UploadFile) (e : Env) : outcome bytes * Env :=
  match audio with
  | Some b => (Ok b, e)
  | None => (Raise (mkException (py "OSError") (py "read failed")), e)
  end.

Definition tempfile_write (b : bytes) (e : Env) : outcome pystr * Env :=
  (Ok (py "/tmp/tmp0.webm"), e).

(** Whisper hears a fixed result. *)
Definition whisper_transcribe (heard : WhisperResult) (tmp_path : pystr) (e : Env)
  : outcome WhisperResult * Env := (Ok heard, e).

Definition lt_check (tool : LanguageTool) (text : pystr) (e : Env)
  : outcome Matches * Env := (Ok tt, e).

(** LanguageTool rewrites every text to a fixed one. *)
Definition lt_utils_correct (rewritten : pystr) (text : pystr) (m : Matches) (e : Env)
  : outcome pystr * Env := (Ok rewritten, e).

Definition PiperVoice_load (model_path : pystr) (e : Env) : outcome PiperVoice * Env :=
  if e =? 0
  then (Raise (mkException (py "FileNotFoundError") model_path), 1)
  else (Ok e, e + 1).

(** The engine writes two frames and leaves the format alone. *)
Definition synthesize_wav (voice : PiperVoice) (text : pystr)
    (wav_file : Wave_write) (e : Env) : outcome Wave_write * Env :=
  (Ok (writeframes [x01; x00; x02; x00] wav_file), e).

(** Rendering fails as CPython's UTF-8 encoder does on the dumped text. *)
Definition render_error (content : json) : Exception :=
  UnicodeEncodeError_utf8 (json_dumps content).

Definition upload_audio (heard : WhisperResult) (rewritten : pystr) :=
  upload_audio Env PiperVoice UploadFile Matches unicode_lower audio_read
    tempfile_write (whisper_transcribe heard) lt_check
    (lt_utils_correct rewritten) PiperVoice_load synthesize_wav render_error.

Definition get_piper_voice := get_piper_voice Env PiperVoice PiperVoice_load.

Definition correct_grammar (rewritten : pystr) :=
  correct_grammar Env PiperVoice Matches lt_check (lt_utils_correct rewritten).

(** A fresh process whose model files are in place. *)
Definition start : World Env PiperVoice := mkWorld 1 ∅ [].
(** A fresh process whose model files are missing. *)
Definition start_missing : World Env PiperVoice := mkWorld 0 ∅ [].

Definition heard_en : WhisperResult :=
  mkWhisperResult (Some (py " i has a apple ")) (Some (py "en")).
Definition heard_tr : WhisperResult :=
  mkWhisperResult (Some (py " merhaba ")) (Some (py "tr")).

(** Whisper returns a text and no language. *)
Definition heard_no_language : WhisperResult :=
  mkWhisperResult (Some (py "  hello there  ")) None.


(** "Ångström". *)
Definition angstrom : pystr := [197; 110; 103; 115; 116; 114; 246; 109].

Definition email : pystr := py "someone@example.org".
Definition audio : UploadFile := Some [x1a; x45; xdf; xa3].
Definition unreadable : UploadFile := None.

Definition stt_with_whisper (heard : WhisperResult) :=
  stt_with_whisper Env PiperVoice tempfile_write (whisper_transcribe heard).

Definition tts_with_piper :=
  tts_with_piper Env PiperVoice PiperVoice_load synthesize_wav.

(** The state after the upload has been read in [w]. *)
Definition read_done (w : World Env PiperVoice) : World Env PiperVoice :=
  mkWorld (env w) (piper_voices w) (audio_read_ev true :: trace w).

Definition missing_model : Exception :=
  mkException (py "FileNotFoundError") (py "models/en_US-kristin-medium.onnx").

End Demo.

(* ===================================================================== *)
(*  Further observations                                                 *)
(* ===================================================================== *)

(** What an event is a call of: one of the outside services, or one of the
    two functions whose entry is recorded. *)
Inductive Callee :=
| audio_read_c
| tempfile_write_c
| whisper_transcribe_c
| correct_grammar_c
| lt_check_c
| lt_correct_c
| tts_with_piper_c
| PiperVoice_load_c
| synthesize_wav_c.

#[global] Instance Callee_eq_dec : EqDecision Callee.
Proof. solve_decision. Defined.

Definition callee_of (ev : Event) : Callee :=
  match ev with
  | audio_read_ev _ => audio_read_c
  | tempfile_write_ev _ _ => tempfile_write_c
  | whisper_transcribe_ev _ _ => whisper_transcribe_c
  | correct_grammar_ev _ _ => correct_grammar_c
  | lt_check_ev _ _ _ => lt_check_c
  | lt_correct_ev _ _ => lt_correct_c
  | tts_with_piper_ev _ _ => tts_with_piper_c
  | PiperVoice_load_ev _ _ => PiperVoice_load_c
  | synthesize_wav_ev _ _ => synthesize_wav_c
  end.

(** How often [c] was called in a run. *)
Definition calls (c : Callee) (evs : list Event) : nat :=
  count_events (fun ev => bool_decide (callee_of ev = c)) evs.

(** A string of whitespace only. *)
Definition all_space (s : pystr) : Prop := Forall (fun c => isspace c = true) s.

(** Three more fields of the header of a WAV file: the size of the RIFF
    chunk, the byte rate and the block alignment. *)
Definition wav_riff_size (b : bytes) : N := le_value (slice 4 4 b).
Definition wav_byte_rate (b : bytes) : N := le_value (slice 28 4 b).
Definition wav_block_align (b : bytes) : N := le_value (slice 32 2 b).

(** A LanguageTool check belongs to the language of the key. *)
Definition tool_of_key (tool : LanguageTool) (lang_key : option pystr) : Prop :=
  match tool with
  | lt_tool_en => lang_key = Some (py "en")
  | lt_tool_de => lang_key = Some (py "de")
  end.

(** A deployment whose synthesis engine is broken. *)
Module DemoFaults.

Definition engine_fault : Exception :=
  mkException (py "RuntimeError") (py "onnxruntime failure").

Definition synthesize_wav (voice : Demo.PiperVoice) (text : pystr)
    (wav_file : Wave_write) (e : Demo.Env) : outcome Wave_write * Demo.Env :=
  (Raise engine_fault, e).

Definition tts_with_piper :=
  tts_with_piper Demo.Env Demo.PiperVoice Demo.PiperVoice_load synthesize_wav.

(** An engine that, as Piper does, sets the format of the writer itself
    before it writes: here to 16000 Hz. *)
Definition synthesize_wav_16k (voice : Demo.PiperVoice) (text : pystr)
    (wav_file : Wave_write) (e : Demo.Env) : outcome Wave_write * Demo.Env :=
  (Ok (writeframes [x01; x00; x02; x00]
         (setframerate 16000 (setsampwidth 2 (setnchannels 1 wav_file)))), e).

Definition upload_audio_16k (heard : WhisperResult) (rewritten : pystr) :=
  upload_audio Demo.Env Demo.PiperVoice Demo.UploadFile Demo.Matches
    Demo.unicode_lower Demo.audio_read Demo.tempfile_write
    (Demo.whisper_transcribe heard) Demo.lt_check
    (Demo.lt_utils_correct rewritten) Demo.PiperVoice_load synthesize_wav_16k
    Demo.render_error.

(** An upload whose read fails with a message that holds a lone
    surrogate, as a file name with an undecodable byte gives. *)
Definition garbled_read : Exception :=
  mkException (py "OSError") [98; 97; 100; 32; 56448].

Definition audio_read_garbled (audio : Demo.UploadFile) (e : Demo.Env)
  : outcome bytes * Demo.Env := (Raise garbled_read, e).

Definition upload_audio_garbled (heard : WhisperResult) (rewritten : pystr) :=
  upload_audio Demo.Env Demo.PiperVoice Demo.UploadFile Demo.Matches
    Demo.unicode_lower audio_read_garbled Demo.tempfile_write
    (Demo.whisper_transcribe heard) Demo.lt_check
    (Demo.lt_utils_correct rewritten) Demo.PiperVoice_load Demo.synthesize_wav
    Demo.render_error.

End DemoFaults.

(* ===================================================================== *)
(*  Properties of the string helpers                                     *)
(* ===================================================================== *)

Lemma lstrip_suffix (s : pystr) : lstrip s `suffix_of` s.
Proof.
  induction s as [|c s IH]; simpl; [done|].
  destruct (isspace c); [by apply suffix_cons_r | done].
Qed.

Lemma lstrip_head (s : pystr) (c : pychar) :
  head (lstrip s) = Some c -> isspace c = false.
Proof.
  induction s as [|a s IH]; simpl; [done|].
  destruct (isspace a) eqn:Ha; [done|].
  simpl. intros [= <-]. done.
Qed.

Lemma rstrip_prefix (s : pystr) : rstrip s `prefix_of` s.
Proof.
  unfold rstrip. apply prefix_suffix_reverse.
  rewrite reverse_involutive. apply lstrip_suffix.
Qed.

Lemma rstrip_last (s : pystr) (c : pychar) :
  last (rstrip s) = Some c -> isspace c = false.
Proof.
  unfold rstrip. rewrite last_reverse. apply lstrip_head.
Qed.

Lemma prefix_head {A} (p l : list A) (x : A) :
  p `prefix_of` l -> head p = Some x -> head l = Some x.
Proof. intros [k ->]. destruct p; [done|]. simpl. done. Qed.

Lemma strip_stripped (s : pystr) : stripped (strip s).
Proof.
  unfold stripped, strip, first_char, last_char. split; intros c Hc.
  - apply (lstrip_head s). eapply prefix_head; [apply rstrip_prefix | done].
  - by apply (rstrip_last (lstrip s)).
Qed.

Lemma ascii_lower_upper (c : pychar) :
  is_ascii_char c = true -> ascii_lower (ascii_upper c) = ascii_lower c.
Proof.
  unfold ascii_lower, ascii_upper, is_ascii_char. intros _.
  destruct ((97 <=? c) && (c <=? 122)) eqn:Hl.
  - apply andb_true_iff in Hl as [H1%N.leb_le H2%N.leb_le].
    replace ((65 <=? c - 32) && (c - 32 <=? 90)) with true
      by (symmetry; apply andb_true_iff; split; apply N.leb_le; lia).
    replace ((65 <=? c) && (c <=? 90)) with false
      by (symmetry; apply andb_false_iff; right; apply N.leb_gt; lia).
    lia.
  - done.
Qed.

Lemma ascii_upper_is_ascii (c : pychar) :
  is_ascii_char c = true -> is_ascii_char (ascii_upper c) = true.
Proof.
  unfold ascii_upper, is_ascii_char. case_match; rewrite !N.ltb_lt; lia.
Qed.

(* ===================================================================== *)
(*  Properties of the pipeline                                           *)
(* ===================================================================== *)

Section Properties.

Context {Env PiperVoice UploadFile Matches : Type}.
Context (unicode_lower : pystr -> pychar -> pystr -> pystr).
Context (audio_read : UploadFile -> Env -> outcome bytes * Env).
Context (tempfile_write : bytes -> Env -> outcome pystr * Env).
Context (whisper_transcribe : pystr -> Env -> outcome WhisperResult * Env).
Context (lt_check : LanguageTool -> pystr -> Env -> outcome Matches * Env).
Context (lt_utils_correct : pystr -> Matches -> Env -> outcome pystr * Env).
Context (PiperVoice_load : pystr -> Env -> outcome PiperVoice * Env).
Context (synthesize_wav :
           PiperVoice -> pystr -> Wave_write -> Env -> outcome Wave_write * Env).
Context (render_error : json -> Exception).

Local Abbreviation world := (World Env PiperVoice).
Local Abbreviation resolve := (detect_lang_for_tts unicode_lower).
Local Abbreviation lower_ := (lower unicode_lower).
Local Abbreviation stt := (stt_with_whisper Env PiperVoice tempfile_write whisper_transcribe).
Local Abbreviation correct := (correct_grammar Env PiperVoice Matches lt_check lt_utils_correct).
Local Abbreviation get_voice := (get_piper_voice Env PiperVoice PiperVoice_load).
Local Abbreviation tts := (tts_with_piper Env PiperVoice PiperVoice_load synthesize_wav).
Local Abbreviation body :=
  (upload_audio_body Env PiperVoice UploadFile Matches unicode_lower audio_read
     tempfile_write whisper_transcribe lt_check lt_utils_correct
     PiperVoice_load synthesize_wav render_error).
Local Abbreviation upload :=
  (upload_audio Env PiperVoice UploadFile Matches unicode_lower audio_read
     tempfile_write whisper_transcribe lt_check lt_utils_correct
     PiperVoice_load synthesize_wav render_error).

(* ------------------------------------------------------------------- *)
(*  Reasoning about runs                                               *)
(* ------------------------------------------------------------------- *)

Section Respects.

Variable R : world -> world -> Prop.
Hypothesis R_refl : forall w, R w w.
Hypothesis R_trans : forall w1 w2 w3, R w1 w2 -> R w2 w3 -> R w1 w3.

Lemma respects_ret {A} (Q : A -> Prop) (a : A) :
  Q a -> respects R Q (ret Env PiperVoice a).
Proof. intros Ha w. simpl. split; [apply R_refl | by intros ? [= <-]]. Qed.

Lemma respects_lift {A} (r : outcome A) :
  respects R (fun _ => True) (lift Env PiperVoice r).
Proof. intros w. simpl. split; [apply R_refl | done]. Qed.

Lemma respects_lookup_voice (k : pystr) :
  respects R (fun _ => True) (lookup_voice Env PiperVoice k).
Proof. intros w. simpl. split; [apply R_refl | done]. Qed.

Lemma respects_bind {A B} (Q : A -> Prop) (Q' : B -> Prop)
    (m : M Env PiperVoice A) (f : A -> M Env PiperVoice B) :
  respects R Q m -> (forall a, Q a -> respects R Q' (f a)) ->
  respects R Q' (bind Env PiperVoice m f).
Proof.
  intros Hm Hf w. unfold bind. destruct (Hm w) as [HR HQ].
  destruct (m w) as [[a|e] w1] eqn:E; simpl in *.
  - destruct (Hf a (HQ a eq_refl) w1) as [HR' HQ'].
    split; [eapply R_trans; eauto | done].
  - split; [done | intros ? [=]].
Qed.

Lemma respects_try_except {A} (Q : A -> Prop)
    (m : M Env PiperVoice A) (h : Exception -> M Env PiperVoice A) :
  respects R Q m -> (forall e, respects R Q (h e)) ->
  respects R Q (try_except Env PiperVoice m h).
Proof.
  intros Hm Hh w. unfold try_except. destruct (Hm w) as [HR HQ].
  destruct (m w) as [[a|e] w1] eqn:E; simpl in *.
  - split; [done | intros ? [= <-]; by apply HQ].
  - destruct (Hh e w1) as [HR' HQ']. split; [eapply R_trans; eauto | done].
Qed.

Lemma respects_weaken {A} (Q Q' : A -> Prop) (m : M Env PiperVoice A) :
  respects R Q m -> (forall a, Q a -> Q' a) -> respects R Q' m.
Proof. intros Hm HQ w. destruct (Hm w). split; [done | auto]. Qed.

End Respects.

Lemma emits_refl (P : Event -> Prop) (w : world) : emits P w w.
Proof. exists []. split; [reflexivity | constructor]. Qed.

Lemma emits_trans (P : Event -> Prop) (w1 w2 w3 : world) :
  emits P w1 w2 -> emits P w2 w3 -> emits P w1 w3.
Proof.
  intros (evs1 & H1 & F1) (evs2 & H2 & F2). exists (evs2 ++ evs1).
  unfold emitted in *. split; [by rewrite H2, H1, app_assoc|].
  apply Forall_app; done.
Qed.

Lemma emits_enter (P : Event -> Prop) (ev : Event) :
  P ev -> respects (emits P) (fun _ => True) (enter Env PiperVoice ev).
Proof.
  intros Hev w. split; [|done]. exists [ev]. split; [reflexivity|].
  by constructor.
Qed.

Lemma emits_extcall {A} (P : Event -> Prop) (ev : bool -> Event)
    (f : Env -> outcome A * Env) :
  (forall ok, P (ev ok)) ->
  respects (emits P) (fun _ => True) (extcall Env PiperVoice ev f).
Proof.
  intros Hev w. unfold extcall. destruct (f (env w)) as [r e'].
  split; [|done]. exists [ev (is_ok r)]. split; [reflexivity|].
  by constructor.
Qed.

Lemma emits_store_voice (P : Event -> Prop) (k : pystr) (v : PiperVoice) :
  respects (emits P) (fun _ => True) (store_voice Env PiperVoice k v).
Proof. intros w. split; [|done]. exists []. split; [reflexivity | constructor]. Qed.

(* ------------------------------------------------------------------- *)
(*  Voice cache                                                        *)
(* ------------------------------------------------------------------- *)

Lemma PIPER_MODELS_lookup (k model_path : pystr) :
  PIPER_MODELS !! k = Some model_path ->
  (k = py "en" /\ model_path = py "models/en_US-kristin-medium.onnx")
  \/ (k = py "de" /\ model_path = py "models/de_DE-thorsten-medium.onnx")
  \/ (k = py "tr" /\ model_path = py "models/tr_TR-fettah-medium.onnx").
Proof.
  unfold PIPER_MODELS. rewrite !lookup_insert_Some, lookup_empty.
  intros [[<- <-]|[_ [[<- <-]|[_ [[<- <-]|[_ [=]]]]]]]; auto.
Qed.

Lemma PIPER_MODELS_inj (k1 k2 model_path : pystr) :
  PIPER_MODELS !! k1 = Some model_path ->
  PIPER_MODELS !! k2 = Some model_path -> k1 = k2.
Proof.
  intros H1%PIPER_MODELS_lookup H2%PIPER_MODELS_lookup.
  destruct H1 as [[-> ->]|[[-> ->]|[-> ->]]],
           H2 as [[-> H]|[[-> H]|[-> H]]]; try done;
    vm_compute in H; discriminate.
Qed.

Lemma effective_key_configured (k : pystr) :
  is_Some (PIPER_MODELS !! effective_key k).
Proof.
  unfold effective_key. destruct (PIPER_MODELS !! k) eqn:E.
  - by rewrite E.
  - eexists. vm_compute. reflexivity.
Qed.

Lemma get_piper_voice_unfold (k : pystr) :
  exists model_path,
    PIPER_MODELS !! effective_key k = Some model_path /\
    forall w,
      get_voice k w =
        match piper_voices w !! effective_key k with
        | Some voice => (Ok voice, w)
        | None =>
            match PiperVoice_load model_path (env w) with
            | (Ok voice, e') =>
                (Ok voice,
                 mkWorld e' (<[effective_key k := voice]> (piper_voices w))
                   (PiperVoice_load_ev model_path true :: trace w))
            | (Raise e, e') =>
                (Raise e,
                 mkWorld e' (piper_voices w)
                   (PiperVoice_load_ev model_path false :: trace w))
            end
        end.
Proof.
  destruct (effective_key_configured k) as [model_path Hp].
  exists model_path. split; [done|]. intros w.
  unfold get_piper_voice, bind, lookup_voice, lift, extcall, store_voice, ret.
  destruct (piper_voices w !! effective_key k); [done|].
  rewrite Hp. simpl.
  destruct (PiperVoice_load model_path (env w)) as [[v|e] e']; done.
Qed.

Lemma count_events_cons (p : Event -> bool) (ev : Event) (tr : list Event) :
  p ev = false -> count_events p (ev :: tr) = count_events p tr.
Proof. intros H. simpl. by rewrite H. Qed.

Lemma not_load_not_successful (model_path : pystr) (ev : Event) :
  is_load ev = false -> is_successful_load model_path ev = false.
Proof. by destruct ev. Qed.

Lemma not_load_not_load_of (model_path : pystr) (ev : Event) :
  is_load ev = false -> is_load_of model_path ev = false.
Proof. by destruct ev. Qed.

Lemma keeps_consistent_refl (w : world) : keeps_consistent w w.
Proof. split; [by intros k v | split; [done | by intros k p v]]. Qed.

Lemma keeps_consistent_trans (w1 w2 w3 : world) :
  keeps_consistent w1 w2 -> keeps_consistent w2 w3 -> keeps_consistent w1 w3.
Proof.
  intros (G1 & C1 & N1) (G2 & C2 & N2).
  split; [intros k v H; auto | split; [auto|]].
  intros k p v Hk Hc. rewrite (N2 k p v Hk (G1 _ _ Hc)). by eapply N1.
Qed.

Lemma keeps_consistent_event (w : world) (e' : Env) (ev : Event) :
  is_load ev = false ->
  keeps_consistent w (mkWorld e' (piper_voices w) (ev :: trace w)).
Proof.
  intros Hev. split; [by intros k v|]. split.
  - intros [Hdom Hcount]. split; simpl; [done|].
    intros k model_path Hk. unfold successful_loads.
    rewrite count_events_cons by by apply not_load_not_successful.
    by apply Hcount.
  - intros k model_path v Hk Hc. unfold load_attempts. simpl.
    by rewrite not_load_not_load_of.
Qed.

Lemma keeps_consistent_enter (ev : Event) :
  is_load ev = false ->
  respects keeps_consistent (fun _ => True) (enter Env PiperVoice ev).
Proof. intros Hev w. split; [by apply keeps_consistent_event | done]. Qed.

Lemma keeps_consistent_extcall {A} (ev : bool -> Event)
    (f : Env -> outcome A * Env) :
  (forall ok, is_load (ev ok) = false) ->
  respects keeps_consistent (fun _ => True) (extcall Env PiperVoice ev f).
Proof.
  intros Hev w. unfold extcall. destruct (f (env w)) as [r e'].
  split; [by apply keeps_consistent_event | done].
Qed.

Lemma keeps_consistent_get_piper_voice (k : pystr) :
  respects keeps_consistent (fun _ => True) (get_voice k).
Proof.
  intros w. split; [|done].
  destruct (get_piper_voice_unfold k) as (model_path & Hp & ->).
  destruct (piper_voices w !! effective_key k) as [v0|] eqn:Hc;
    [apply keeps_consistent_refl|].
  assert (forall k' path' v' ok,
            PIPER_MODELS !! k' = Some path' -> piper_voices w !! k' = Some v' ->
            is_load_of path' (PiperVoice_load_ev model_path ok) = false) as Hother.
  { intros k' path' v' ok Hk' Hc'. simpl. apply bool_decide_eq_false_2.
    intros ->. assert (effective_key k = k') by by eapply PIPER_MODELS_inj.
    congruence. }
  destruct (PiperVoice_load model_path (env w)) as [[v|e] e']; simpl.
  - split; [|split].
    + intros k' v' Hk'. simpl.
      rewrite lookup_insert_ne; [done | congruence].
    + intros [Hdom Hcount]. split; simpl.
      * intros k' v'. rewrite lookup_insert_Some.
        intros [[<- _]|[_ Hk']]; [by eexists | by eapply Hdom].
      * intros k' path' Hk'. unfold successful_loads. simpl.
        destruct (decide (effective_key k = k')) as [<-|Hne].
        -- rewrite lookup_insert_eq. assert (path' = model_path) as -> by congruence.
           rewrite bool_decide_eq_true_2 by done.
           specialize (Hcount _ _ Hp). rewrite Hc in Hcount.
           unfold successful_loads in Hcount. by rewrite Hcount.
        -- rewrite lookup_insert_ne by done.
           rewrite bool_decide_eq_false_2.
           ++ by apply Hcount.
           ++ intros <-. apply Hne. by eapply PIPER_MODELS_inj.
    + intros k' path' v' Hk' Hc'. unfold load_attempts.
      cbn [trace]. rewrite count_events_cons; [done | by eapply Hother].
  - split; [by intros k' v'|]. split.
    + intros [Hdom Hcount]. split; simpl; [done|].
      intros k' path' Hk'. unfold successful_loads. simpl. by apply Hcount.
    + intros k' path' v' Hk' Hc'. unfold load_attempts.
      cbn [trace]. rewrite count_events_cons; [done | by eapply Hother].
Qed.

Ltac step_bind trans :=
  eapply (respects_bind _ trans (fun _ => True)); [| intros ? _].

Lemma keeps_consistent_stt (audio_bytes : bytes) :
  respects keeps_consistent (fun _ => True) (stt audio_bytes).
Proof.
  unfold stt_with_whisper.
  step_bind keeps_consistent_trans; [by apply keeps_consistent_extcall|].
  step_bind keeps_consistent_trans; [by apply keeps_consistent_extcall|].
  by apply respects_ret; [apply keeps_consistent_refl|].
Qed.

Lemma keeps_consistent_correct (text : pystr) (key : option pystr) :
  respects keeps_consistent (fun _ => True) (correct text key).
Proof.
  unfold correct_grammar.
  step_bind keeps_consistent_trans; [by apply keeps_consistent_enter|].
  repeat case_bool_decide;
    try (step_bind keeps_consistent_trans; [by apply keeps_consistent_extcall|];
         step_bind keeps_consistent_trans; [by apply keeps_consistent_extcall|]);
    by apply respects_ret; [apply keeps_consistent_refl|].
Qed.

Lemma keeps_consistent_tts (text key : pystr) :
  respects keeps_consistent (fun _ => True) (tts text key).
Proof.
  unfold tts_with_piper.
  step_bind keeps_consistent_trans; [by apply keeps_consistent_enter|].
  step_bind keeps_consistent_trans; [apply keeps_consistent_get_piper_voice|].
  step_bind keeps_consistent_trans; [by apply keeps_consistent_extcall|].
  step_bind keeps_consistent_trans; [apply respects_lift, keeps_consistent_refl|].
  by apply respects_ret; [apply keeps_consistent_refl|].
Qed.

Lemma keeps_consistent_upload (email : pystr) (audio : UploadFile) :
  respects keeps_consistent (fun _ => True) (upload email audio).
Proof.
  unfold upload_audio. apply respects_try_except.
  - apply keeps_consistent_trans.
  - unfold upload_audio_body.
    step_bind keeps_consistent_trans; [by apply keeps_consistent_extcall|].
    step_bind keeps_consistent_trans; [apply keeps_consistent_stt|].
    destruct (resolve _).
    + step_bind keeps_consistent_trans; [apply keeps_consistent_correct|].
      step_bind keeps_consistent_trans; [apply keeps_consistent_tts|].
      by apply respects_ret; [apply keeps_consistent_refl|].
    + apply respects_lift, keeps_consistent_refl.
  - intros e. apply respects_lift, keeps_consistent_refl.
Qed.

Local Abbreviation step_ :=
  (step Env PiperVoice UploadFile Matches unicode_lower audio_read
     tempfile_write whisper_transcribe lt_check lt_utils_correct
     PiperVoice_load synthesize_wav render_error).
Local Abbreviation reachable_ :=
  (reachable Env PiperVoice UploadFile Matches unicode_lower audio_read
     tempfile_write whisper_transcribe lt_check lt_utils_correct
     PiperVoice_load synthesize_wav render_error).

Lemma step_keeps_consistent (w w' : world) :
  step_ w w' -> keeps_consistent w w'.
Proof.
  destruct 1.
  - split; [by intros k v|]. split; [by intros [Hd Hc] | by intros k p v].
  - apply keeps_consistent_get_piper_voice.
  - apply keeps_consistent_upload.
Qed.

Lemma steps_keep_consistent (w w' : world) :
  rtc step_ w w' -> keeps_consistent w w'.
Proof.
  induction 1 as [w | w1 w2 w3 H12 _ IH].
  - apply keeps_consistent_refl.
  - eapply keeps_consistent_trans; [by apply step_keeps_consistent | done].
Qed.

Lemma start_consistent (e : Env) : cache_consistent (mkWorld e ∅ [] : world).
Proof.
  split; simpl.
  - intros k v. by rewrite lookup_empty.
  - intros k path _. by rewrite lookup_empty.
Qed.

Lemma reachable_consistent (w : world) : reachable_ w -> cache_consistent w.
Proof.
  intros [e He]. apply steps_keep_consistent in He as (_ & He & _).
  apply He, start_consistent.
Qed.

Lemma get_piper_voice_cached (k : pystr) (w : world) (v : PiperVoice) :
  piper_voices w !! effective_key k = Some v -> get_voice k w = (Ok v, w).
Proof.
  intros Hc. destruct (get_piper_voice_unfold k) as (model_path & _ & ->).
  by rewrite Hc.
Qed.

Lemma get_piper_voice_stores (k : pystr) (w w1 : world) (v : PiperVoice) :
  get_voice k w = (Ok v, w1) -> piper_voices w1 !! effective_key k = Some v.
Proof.
  destruct (get_piper_voice_unfold k) as (model_path & _ & ->).
  destruct (piper_voices w !! effective_key k) as [v0|] eqn:Hc.
  - by intros [= <- <-].
  - destruct (PiperVoice_load model_path (env w)) as [[v1|e] e']; [|done].
    intros [= <- <-]. simpl. by rewrite lookup_insert_eq.
Qed.

(** C7.  A second call of [get_piper_voice] with the same key returns
    the very handle of the first and loads nothing, also when other calls
    and requests come in between; a cached handle is never replaced; in
    every state of a process lifetime each configured model has been
    loaded successfully at most once (once if its key is cached, never
    otherwise); once a key is cached no load of its model is even tried
    again; and the cache holds one handle per key. *)
Theorem piper_voices_memoized :
  (forall (k : pystr) (w w1 : world) (v : PiperVoice),
      get_voice k w = (Ok v, w1) -> get_voice k w1 = (Ok v, w1))
  /\ (forall (k : pystr) (w w1 w2 : world) (v : PiperVoice),
        get_voice k w = (Ok v, w1) -> rtc step_ w1 w2 ->
        get_voice k w2 = (Ok v, w2))
  /\ (forall (w w' : world) (k : pystr) (v : PiperVoice),
        rtc step_ w w' -> piper_voices w !! k = Some v ->
        piper_voices w' !! k = Some v)
  /\ (forall (w : world) (k model_path : pystr),
        reachable_ w -> PIPER_MODELS !! k = Some model_path ->
        (successful_loads model_path (trace w) <= 1)%nat
        /\ (successful_loads model_path (trace w) = 1%nat
            <-> is_Some (piper_voices w !! k)))
  /\ (forall (w w' : world) (k model_path : pystr) (v : PiperVoice),
        rtc step_ w w' -> PIPER_MODELS !! k = Some model_path ->
        piper_voices w !! k = Some v ->
        load_attempts model_path (trace w') = load_attempts model_path (trace w))
  /\ (forall (w : world) (k : pystr) (v1 v2 : PiperVoice),
        piper_voices w !! k = Some v1 -> piper_voices w !! k = Some v2 ->
        v1 = v2).
Proof.
  split; [|split; [|split; [|split; [|split]]]].
  - intros k w w1 v H. by apply get_piper_voice_cached, (get_piper_voice_stores k w).
  - intros k w w1 w2 v H Hsteps. apply get_piper_voice_cached.
    apply steps_keep_consistent in Hsteps as [Hgrow _].
    by apply Hgrow, (get_piper_voice_stores k w).
  - intros w w' k v Hsteps.
    apply steps_keep_consistent in Hsteps as [Hgrow _]. apply Hgrow.
  - intros w k model_path [_ Hcount]%reachable_consistent Hk.
    rewrite (Hcount _ _ Hk). destruct (piper_voices w !! k) as [v|].
    + split; [lia|]. split; [intros _; by eexists | done].
    + split; [lia|]. split; [done | by intros [? ?]].
  - intros w w' k model_path v Hsteps Hk Hc.
    apply steps_keep_consistent in Hsteps as (_ & _ & Hno). by eapply Hno.
  - congruence.
Qed.

(** C8.  When the model of the (possibly substituted) key is not cached
    and [PiperVoice.load] raises, [get_piper_voice] raises the same
    exception and leaves the cache as it was, with no entry for the key;
    a later call with the same cache asks [PiperVoice.load] again and
    returns what it gives. *)
Theorem get_piper_voice_load_failure
    (k model_path : pystr) (w : world) (e : Exception) (e' : Env) :
  PIPER_MODELS !! effective_key k = Some model_path ->
  piper_voices w !! effective_key k = None ->
  PiperVoice_load model_path (env w) = (Raise e, e') ->
  (get_voice k w).1 = Raise e
  /\ piper_voices (get_voice k w).2 = piper_voices w
  /\ piper_voices (get_voice k w).2 !! effective_key k = None
  /\ env (get_voice k w).2 = e'
  /\ (forall (w2 : world) (r : outcome PiperVoice) (e2 : Env),
        piper_voices w2 = piper_voices (get_voice k w).2 ->
        PiperVoice_load model_path (env w2) = (r, e2) ->
        (get_voice k w2).1 = r
        /\ trace (get_voice k w2).2
           = PiperVoice_load_ev model_path (is_ok r) :: trace w2
        /\ (forall v, r = Ok v ->
              piper_voices (get_voice k w2).2 !! effective_key k = Some v)).
Proof.
  intros Hp Hc Hload.
  destruct (get_piper_voice_unfold k) as (path' & Hp' & Hget).
  assert (path' = model_path) as -> by congruence.
  rewrite !Hget, Hc, Hload. simpl. repeat split; try done.
  all: rewrite Hget; rewrite H, Hc, H0; destruct r as [v|e0]; simpl; try done.
  intros v0 [= <-]. by rewrite lookup_insert_eq.
Qed.

(** C9.  For a key outside the configured languages [get_piper_voice]
    works with the default key: it behaves exactly as a call with the
    default key, the model table has a path for the key it looks up
    (for every argument), and it returns the default language's handle,
    the cached one if there is one and else the one just loaded. *)
Theorem get_piper_voice_default_fallback :
  (forall k : pystr, is_Some (PIPER_MODELS !! effective_key k))
  /\ (forall k : pystr, PIPER_MODELS !! k = None ->
        effective_key k = DEFAULT_LANG
        /\ (forall w : world, get_voice k w = get_voice DEFAULT_LANG w)
        /\ (forall (w : world) (v : PiperVoice),
              piper_voices w !! DEFAULT_LANG = Some v ->
              get_voice k w = (Ok v, w))
        /\ (forall w : world,
              piper_voices w !! DEFAULT_LANG = None ->
              (get_voice k w).1
              = (PiperVoice_load (py "models/en_US-kristin-medium.onnx") (env w)).1
              /\ forall v, (get_voice k w).1 = Ok v ->
                   piper_voices (get_voice k w).2 !! DEFAULT_LANG = Some v)).
Proof.
  split; [apply effective_key_configured|].
  intros k Hk.
  assert (effective_key k = DEFAULT_LANG) as Heff
    by (unfold effective_key; by rewrite Hk).
  assert (effective_key DEFAULT_LANG = DEFAULT_LANG) as Hdef by reflexivity.
  assert (forall w : world, get_voice k w = get_voice DEFAULT_LANG w) as Hsame.
  { intros w. unfold get_piper_voice. by rewrite Heff, Hdef. }
  split; [done|]. split; [done|]. split.
  - intros w v Hc. apply get_piper_voice_cached. by rewrite Heff.
  - intros w Hc.
    destruct (get_piper_voice_unfold k) as (path & Hp & Hget).
    rewrite Heff in Hp, Hget.
    assert (path = py "models/en_US-kristin-medium.onnx") as ->
      by (vm_compute in Hp; by injection Hp as <-).
    rewrite Hget, Hc.
    destruct (PiperVoice_load _ (env w)) as [[v|e] e']; simpl.
    + split; [done|]. intros v0 [= <-]. by rewrite lookup_insert_eq.
    + split; [done|]. intros v0 [=].
Qed.

(** C6.  [correct_grammar] returns its text unchanged for the key None
    and for "tr", and more generally for every key other than "en" and
    "de": no grammar engine is called and nothing but the entry into the
    function is recorded. *)
Theorem correct_grammar_identity :
  (forall (t : pystr) (w : world), (correct t None w).1 = Ok t)
  /\ (forall (t : pystr) (w : world), (correct t (Some (py "tr")) w).1 = Ok t)
  /\ (forall (t : pystr) (key : option pystr) (w : world),
        key <> Some (py "en") -> key <> Some (py "de") ->
        correct t key w
        = (Ok t, mkWorld (env w) (piper_voices w)
                   (correct_grammar_ev t key :: trace w))).
Proof.
  assert (forall (t : pystr) (key : option pystr) (w : world),
        key <> Some (py "en") -> key <> Some (py "de") ->
        correct t key w
        = (Ok t, mkWorld (env w) (piper_voices w)
                   (correct_grammar_ev t key :: trace w))) as H.
  { intros t key w Hen Hde. unfold correct_grammar, bind, enter. simpl.
    by rewrite !bool_decide_eq_false_2. }
  split; [|split; [|done]].
  - intros t w. by rewrite H.
  - intros t w. by rewrite H.
Qed.

(* ------------------------------------------------------------------- *)
(*  Transcription                                                      *)
(* ------------------------------------------------------------------- *)

Lemma stt_with_whisper_ok (b : bytes) (w w' : world) (text raw : pystr) :
  stt b w = (Ok (text, raw), w') ->
  exists (tmp_path : pystr) (r : WhisperResult) (e1 e2 : Env),
    tempfile_write b (env w) = (Ok tmp_path, e1)
    /\ whisper_transcribe tmp_path e1 = (Ok r, e2)
    /\ text = strip (dict_get (result_text r) (py ""))
    /\ raw = dict_get (result_language r) (py "en")
    /\ w' = mkWorld e2 (piper_voices w)
              (whisper_transcribe_ev tmp_path true
               :: tempfile_write_ev b true :: trace w).
Proof.
  unfold stt_with_whisper, bind, extcall, ret.
  destruct (tempfile_write b (env w)) as [[tmp_path|e] e1] eqn:H1; [|done].
  simpl.
  destruct (whisper_transcribe tmp_path e1) as [[r|e] e2] eqn:H2; [|done].
  simpl. intros [= <- <- <-]. by exists tmp_path, r, e1, e2.
Qed.

Lemma stt_with_whisper_run (b : bytes) (w : world) (tmp_path : pystr)
    (r : WhisperResult) (e1 e2 : Env) :
  tempfile_write b (env w) = (Ok tmp_path, e1) ->
  whisper_transcribe tmp_path e1 = (Ok r, e2) ->
  stt b w =
    (Ok (strip (dict_get (result_text r) (py "")),
         dict_get (result_language r) (py "en")),
     mkWorld e2 (piper_voices w)
       (whisper_transcribe_ev tmp_path true :: tempfile_write_ev b true :: trace w)).
Proof.
  intros H1 H2. unfold stt_with_whisper, bind, extcall, ret.
  rewrite H1. simpl. by rewrite H2.
Qed.

Lemma stt_with_whisper_stripped (b : bytes) :
  respects (emits grammar_input_stripped) (fun p => stripped p.1) (stt b).
Proof.
  unfold stt_with_whisper.
  step_bind (emits_trans grammar_input_stripped);
    [by apply emits_extcall|].
  step_bind (emits_trans grammar_input_stripped);
    [by apply emits_extcall|].
  apply respects_ret; [apply emits_refl | apply strip_stripped].
Qed.

(* ------------------------------------------------------------------- *)
(*  Synthesis                                                          *)
(* ------------------------------------------------------------------- *)

Lemma byte_of_N_to_N (n : N) : Byte.to_N (byte_of_N n) = n mod 256.
Proof.
  unfold byte_of_N. destruct (Byte.of_N (n mod 256)) as [b|] eqn:E; simpl.
  - by apply Byte.to_of_N.
  - apply Byte.of_N_None_iff in E.
    pose proof (N.mod_upper_bound n 256). lia.
Qed.

Lemma le_value_le_bytes (width : nat) (n : N) :
  le_value (le_bytes width n) = n mod 256 ^ N.of_nat width.
Proof.
  revert n. induction width as [|k IH]; intros n.
  - simpl. by rewrite N.mod_1_r.
  - cbn [le_bytes le_value]. rewrite IH, byte_of_N_to_N.
    rewrite Nat2N.inj_succ, N.pow_succ_r'.
    rewrite N.Div0.mod_mul_r. lia.
Qed.

Lemma le_bytes_length (width : nat) (n : N) : length (le_bytes width n) = width.
Proof. revert n. induction width; intros n; simpl; [done | by f_equal]. Qed.

(** The writer [tts_with_piper] configures. *)
Local Abbreviation pcm_writer :=
  (setframerate 22050 (setsampwidth 2 (setnchannels 1 wave_open_wb))).

Lemma le_value_le_bytes_small (width : nat) (n : N) :
  n < 256 ^ N.of_nat width -> le_value (le_bytes width n) = n.
Proof. intros H. rewrite le_value_le_bytes. by apply N.mod_small. Qed.

Lemma pack_L_ok (n : N) (b : bytes) :
  pack_L n = Ok b -> b = le_bytes 4 n /\ n < 4294967296.
Proof.
  unfold pack_L. destruct (n <? 4294967296) eqn:H; [|done].
  intros [= <-]. by apply N.ltb_lt in H.
Qed.

Lemma pack_H_ok (n : N) (b : bytes) :
  pack_H n = Ok b -> b = le_bytes 2 n /\ n < 65536.
Proof.
  unfold pack_H. destruct (n <? 65536) eqn:H; [|done].
  intros [= <-]. by apply N.ltb_lt in H.
Qed.

(** The bytes a closed writer leaves, field by field, and what the close
    needed for that. *)
Lemma wave_close_layout (nch sw fr : N) (data wav : bytes) :
  wave_close (mkWave nch sw fr data) = Ok wav ->
  wav = list_byte_of_string "RIFF" ++ le_bytes 4 (36 + N.of_nat (length data))
        ++ list_byte_of_string "WAVE" ++ list_byte_of_string "fmt "
        ++ le_bytes 4 16 ++ le_bytes 2 1 ++ le_bytes 2 nch ++ le_bytes 4 fr
        ++ le_bytes 4 (nch * fr * sw) ++ le_bytes 2 (nch * sw)
        ++ le_bytes 2 (sw * 8) ++ list_byte_of_string "data"
        ++ le_bytes 4 (N.of_nat (length data)) ++ data
  /\ 36 + N.of_nat (length data) < 4294967296
  /\ nch < 65536 /\ fr < 4294967296 /\ nch * fr * sw < 4294967296
  /\ nch * sw < 65536 /\ sw * 8 < 65536
  /\ nch <> 0 /\ sw <> 0 /\ fr <> 0.
Proof.
  unfold wave_close. cbn [nchannels sampwidth framerate datawritten].
  destruct (nch =? 0) eqn:Hn; [done|]. destruct (sw =? 0) eqn:Hs; [done|].
  destruct (fr =? 0) eqn:Hf; [done|].
  apply N.eqb_neq in Hn, Hs, Hf.
  unfold wave_header. cbn [nchannels sampwidth framerate].
  generalize (N.of_nat (length data)). intros n.
  destruct (pack_L (36 + n)) as [b1|] eqn:E1; [|done].
  apply pack_L_ok in E1 as [-> ?]. cbn [obind].
  change (pack_L 16) with (Ok (le_bytes 4 16)).
  change (pack_H WAVE_FORMAT_PCM) with (Ok (le_bytes 2 1)).
  cbn [obind].
  destruct (pack_H nch) as [b2|] eqn:E2; [|done].
  apply pack_H_ok in E2 as [-> ?]. cbn [obind].
  destruct (pack_L fr) as [b3|] eqn:E3; [|done].
  apply pack_L_ok in E3 as [-> ?]. cbn [obind].
  destruct (pack_L (nch * fr * sw)) as [b4|] eqn:E4; [|done].
  apply pack_L_ok in E4 as [-> ?]. cbn [obind].
  destruct (pack_H (nch * sw)) as [b5|] eqn:E5; [|done].
  apply pack_H_ok in E5 as [-> ?]. cbn [obind].
  destruct (pack_H (sw * 8)) as [b6|] eqn:E6; [|done].
  apply pack_H_ok in E6 as [-> ?]. cbn [obind].
  destruct (pack_L n) as [b7|] eqn:E7; [|done].
  apply pack_L_ok in E7 as [-> ?]. cbn [obind].
  intros [= <-]. split; [|done].
  reflexivity.
Qed.

(** The fields of a header, made explicit bytes whose value is known. *)
Ltac explode_field width x H :=
  let Hv := fresh "Hv" in
  let Hl := fresh "Hl" in
  pose proof (le_value_le_bytes_small width x H) as Hv;
  pose proof (le_bytes_length width x) as Hl;
  destruct (le_bytes width x) as [|? [|? [|? [|? [|? ?]]]]];
  try discriminate Hl; clear Hl.

(** A closed writer leaves a PCM WAV file that says of itself the format
    the writer had and holds the frames written. *)
Lemma wave_close_parse (f : Wave_write) (wav : bytes) :
  wave_close f = Ok wav ->
  36 + N.of_nat (length (datawritten f)) < 4294967296
  /\ length wav = (44 + length (datawritten f))%nat
  /\ drop 44 wav = datawritten f
  /\ parse_wav wav
     = Some (mkWavInfo (nchannels f) (sampwidth f * 8) (framerate f)
               (N.of_nat (length (datawritten f))) (datawritten f)).
Proof.
  destruct f as [nch sw fr data]. cbn [nchannels sampwidth framerate datawritten].
  intros (-> & H1 & H2 & H3 & H4 & H5 & H6 & _)%wave_close_layout.
  split; [done|].
  assert (N.of_nat (length data) < 4294967296) as H7 by lia.
  revert H1 H7. generalize (N.of_nat (length data)). intros n H1 H7.
  explode_field 4%nat (36 + n) H1.
  explode_field 2%nat nch H2.
  explode_field 4%nat fr H3.
  explode_field 4%nat (nch * fr * sw) H4.
  explode_field 2%nat (nch * sw) H5.
  explode_field 2%nat (sw * 8) H6.
  explode_field 4%nat n H7.
  repeat match goal with
         | |- context [list_byte_of_string ?t] =>
             let v := eval vm_compute in (list_byte_of_string t) in
             change (list_byte_of_string t) with v
         end.
  cbn [app le_bytes].
  split; [simpl; reflexivity|]. split; [simpl; reflexivity|].
  unfold parse_wav, slice. cbn [firstn skipn take drop].
  rewrite ?take_0, ?drop_0.
  match goal with
  | |- (if ?c then _ else _) = _ =>
      replace c with true by (vm_compute; reflexivity)
  end.
  repeat match goal with
         | H : le_value _ = _ |- _ => rewrite H; clear H
         end.
  reflexivity.
Qed.

Lemma wave_close_pcm (frames wav : bytes) :
  wave_close (writeframes frames pcm_writer) = Ok wav ->
  36 + N.of_nat (length frames) < 4294967296
  /\ length wav = (44 + length frames)%nat
  /\ drop 44 wav = frames
  /\ parse_wav wav
     = Some (mkWavInfo 1 16 22050 (N.of_nat (length frames)) frames).
Proof. intros H. exact (wave_close_parse _ wav H). Qed.

Lemma wave_close_pcm_fits (frames : bytes) :
  36 + N.of_nat (length frames) < 4294967296 ->
  exists wav, wave_close (writeframes frames pcm_writer) = Ok wav.
Proof.
  intros Hlt.
  unfold wave_close, writeframes, setframerate, setsampwidth, setnchannels,
    wave_open_wb. cbn [datawritten nchannels sampwidth framerate app N.eqb].
  revert Hlt. generalize (N.of_nat (length frames)). intros n Hlt.
  unfold wave_header. cbn [nchannels sampwidth framerate].
  unfold pack_L at 1.
  destruct (36 + n <? 4294967296) eqn:H1; [|apply N.ltb_ge in H1; lia].
  cbn [obind].
  change (pack_L 16) with (Ok (le_bytes 4 16)).
  change (pack_H WAVE_FORMAT_PCM) with (Ok (le_bytes 2 1)).
  change (pack_H 1) with (Ok (le_bytes 2 1)).
  change (pack_L 22050) with (Ok (le_bytes 4 22050)).
  change (pack_L (1 * 22050 * 2)) with (Ok (le_bytes 4 44100)).
  change (pack_H (1 * 2)) with (Ok (le_bytes 2 2)).
  change (pack_H (2 * 8)) with (Ok (le_bytes 2 16)).
  cbn [obind]. unfold pack_L.
  destruct (n <? 4294967296) eqn:Hn; [|apply N.ltb_ge in Hn; lia].
  cbn [obind]. by eexists.
Qed.

Lemma get_piper_voice_trace (k : pystr) (w : world) :
  exists loads,
    emitted loads w (get_voice k w).2 /\ Forall (fun ev => is_load ev = true) loads.
Proof.
  destruct (get_piper_voice_unfold k) as (model_path & _ & ->).
  destruct (piper_voices w !! effective_key k).
  - exists []. split; [reflexivity | constructor].
  - destruct (PiperVoice_load model_path (env w)) as [[v|e] e'].
    + exists [PiperVoice_load_ev model_path true].
      split; [reflexivity | by repeat constructor].
    + exists [PiperVoice_load_ev model_path false].
      split; [reflexivity | by repeat constructor].
Qed.

Lemma tts_with_piper_ok (text key : pystr) (w w' : world) (wav : bytes) :
  tts text key w = (Ok wav, w') ->
  exists (voice : PiperVoice) (w1 : world) (wav_file : Wave_write),
    get_voice key (mkWorld (env w) (piper_voices w)
                     (tts_with_piper_ev text key :: trace w)) = (Ok voice, w1)
    /\ synthesize_wav voice text pcm_writer (env w1) = (Ok wav_file, env w')
    /\ wave_close wav_file = Ok wav
    /\ piper_voices w' = piper_voices w1
    /\ trace w' = synthesize_wav_ev text true :: trace w1.
Proof.
  unfold tts_with_piper, bind, enter, extcall, lift, ret. simpl.
  destruct (get_voice key _) as [[voice|e] w1] eqn:Hget; [|done].
  destruct (synthesize_wav voice text _ (env w1)) as [[wav_file|e] e2] eqn:Hsyn;
    [|done].
  simpl.
  destruct (wave_close _) as [wav'|e] eqn:Hwav; [|done].
  intros [= <- <-]. by exists voice, w1, wav_file.
Qed.

Lemma tts_with_piper_run (text key : pystr) (w w1 : world)
    (voice : PiperVoice) (wav_file : Wave_write) (wav : bytes) (e2 : Env) :
  get_voice key (mkWorld (env w) (piper_voices w)
                   (tts_with_piper_ev text key :: trace w)) = (Ok voice, w1) ->
  synthesize_wav voice text pcm_writer (env w1) = (Ok wav_file, e2) ->
  wave_close wav_file = Ok wav ->
  tts text key w
  = (Ok wav, mkWorld e2 (piper_voices w1)
               (synthesize_wav_ev text true :: trace w1)).
Proof.
  intros Hget Hsyn Hwav.
  unfold tts_with_piper, bind, enter, extcall, lift, ret. simpl.
  rewrite Hget, Hsyn. simpl. by rewrite Hwav.
Qed.

(** The events of one call of [tts_with_piper]: the entry, then at most a
    load, then at most the synthesis. *)
Lemma tts_with_piper_trace (text key : pystr) (w : world) :
  exists evs,
    emitted (evs ++ [tts_with_piper_ev text key]) w (tts text key w).2
    /\ Forall (fun ev => is_load ev = true \/ exists ok, ev = synthesize_wav_ev text ok) evs.
Proof.
  unfold tts_with_piper, bind, enter, extcall, lift, ret. simpl.
  set (w0 := mkWorld (env w) (piper_voices w) (tts_with_piper_ev text key :: trace w)).
  destruct (get_piper_voice_trace key w0) as (loads & Hl & Floads).
  assert (Forall (fun ev => is_load ev = true
                   \/ exists ok, ev = synthesize_wav_ev text ok) loads) as Floads'
    by (eapply Forall_impl; [exact Floads | by left]).
  unfold emitted in *.
  destruct (get_voice key w0) as [[voice|e] w1] eqn:Hget; simpl in *.
  - destruct (synthesize_wav voice text _ (env w1)) as [r e2] eqn:Hsyn.
    exists (synthesize_wav_ev text (is_ok r) :: loads). split.
    + destruct r as [wav_file|e]; simpl.
      * destruct (wave_close _); simpl; by rewrite Hl, <- app_assoc.
      * by rewrite Hl, <- app_assoc.
    + constructor; [right; by eexists | done].
  - exists loads. split; [by rewrite Hl, <- app_assoc | done].
Qed.

Lemma emits_get_piper_voice (k : pystr) :
  respects (emits grammar_input_stripped) (fun _ => True) (get_voice k).
Proof.
  intros w. split; [|done].
  destruct (get_piper_voice_trace k w) as (loads & Hl & Floads).
  exists loads. split; [done|].
  eapply Forall_impl; [exact Floads|]. intros ev Hev. by destruct ev.
Qed.

Lemma emits_correct (text : pystr) (key : option pystr) :
  stripped text ->
  respects (emits grammar_input_stripped) (fun _ => True) (correct text key).
Proof.
  intros Ht. unfold correct_grammar.
  step_bind (emits_trans grammar_input_stripped); [by apply emits_enter|].
  repeat case_bool_decide;
    try (step_bind (emits_trans grammar_input_stripped);
           [by apply emits_extcall|];
         step_bind (emits_trans grammar_input_stripped);
           [by apply emits_extcall|]);
    by apply respects_ret; [apply emits_refl|].
Qed.

Lemma emits_tts (text key : pystr) :
  respects (emits grammar_input_stripped) (fun _ => True) (tts text key).
Proof.
  unfold tts_with_piper.
  step_bind (emits_trans grammar_input_stripped); [by apply emits_enter|].
  step_bind (emits_trans grammar_input_stripped); [apply emits_get_piper_voice|].
  step_bind (emits_trans grammar_input_stripped); [by apply emits_extcall|].
  step_bind (emits_trans grammar_input_stripped);
    [apply respects_lift, emits_refl|].
  by apply respects_ret; [apply emits_refl|].
Qed.

Lemma emits_upload (email : pystr) (audio : UploadFile) :
  respects (emits grammar_input_stripped) (fun _ => True) (upload email audio).
Proof.
  unfold upload_audio. apply respects_try_except.
  - apply emits_trans.
  - unfold upload_audio_body.
    step_bind (emits_trans grammar_input_stripped); [by apply emits_extcall|].
    eapply (respects_bind _ (emits_trans grammar_input_stripped)
              (fun p : pystr * pystr => stripped p.1));
      [apply stt_with_whisper_stripped|].
    intros [text raw] Ht. simpl in Ht. cbn [fst snd].
    destruct (resolve raw).
    + step_bind (emits_trans grammar_input_stripped); [by apply emits_correct|].
      step_bind (emits_trans grammar_input_stripped); [apply emits_tts|].
      by apply respects_ret; [apply emits_refl|].
    + apply respects_lift, emits_refl.
  - intros e. apply respects_lift, emits_refl.
Qed.

(* ------------------------------------------------------------------- *)
(*  Endpoint                                                           *)
(* ------------------------------------------------------------------- *)

(** The state once the upload has been read. *)
Local Abbreviation after_read w e1 :=
  (mkWorld e1 (piper_voices w) (audio_read_ev true :: trace w)).

Lemma body_read_fault (email : pystr) (audio : UploadFile) (w : world)
    (e : Exception) (e1 : Env) :
  audio_read audio (env w) = (Raise e, e1) ->
  body email audio w
  = (Raise e, mkWorld e1 (piper_voices w) (audio_read_ev false :: trace w)).
Proof.
  intros H. unfold upload_audio_body, bind, extcall. by rewrite H.
Qed.

Lemma body_stt_fault (email : pystr) (audio : UploadFile) (w w2 : world)
    (b : bytes) (e : Exception) (e1 : Env) :
  audio_read audio (env w) = (Ok b, e1) ->
  stt b (after_read w e1) = (Raise e, w2) ->
  body email audio w = (Raise e, w2).
Proof.
  intros H1 H2. unfold upload_audio_body, bind at 1, extcall.
  rewrite H1. simpl. unfold bind at 1. by rewrite H2.
Qed.

Local Abbreviation new_json := (new_JSONResponse render_error).


Lemma error_body_encodable (e : Exception) :
  json_encodable (error_body e) = utf8_encodable (exc_str e).
Proof.
  unfold error_body. cbn [json_encodable forallb].
  change (utf8_encodable (py "error")) with true.
  cbn [andb]. by rewrite andb_true_r.
Qed.

Lemma new_json_ok (status_code : N) (content : json) :
  json_encodable content = true ->
  new_json status_code content = Ok (JSONResponse status_code content).
Proof. intros H. unfold new_JSONResponse. by rewrite H. Qed.


Lemma new_json_shape (status_code : N) (content : json) (r : HTTPResponse) :
  new_json status_code content = Ok r -> r = JSONResponse status_code content.
Proof.
  unfold new_JSONResponse. destruct (json_encodable content); [|done].
  by intros [= <-].
Qed.


Lemma body_supported (email : pystr) (audio : UploadFile) (w w2 : world)
    (b : bytes) (e1 : Env) (text raw k : pystr) :
  audio_read audio (env w) = (Ok b, e1) ->
  stt b (after_read w e1) = (Ok (text, raw), w2) ->
  resolve raw = Some k ->
  body email audio w
  = match correct text (Some k) w2 with
    | (Ok corrected, w3) =>
        match tts corrected k w3 with
        | (Ok wav, w4) =>
            (Ok (Response wav (py "audio/wav") (audio_headers k corrected)), w4)
        | (Raise e, w4) => (Raise e, w4)
        end
    | (Raise e, w3) => (Raise e, w3)
    end.
Proof.
  intros H1 H2 H3. unfold upload_audio_body, bind at 1, extcall.
  rewrite H1. simpl. unfold bind at 1. rewrite H2. simpl. rewrite H3.
  unfold bind, ret, audio_headers.
  destruct (correct text (Some k) w2) as [[corrected|e] w3]; [|done].
  destruct (tts corrected k w3) as [[wav|e] w4]; [|done].
  by destruct (isascii corrected).
Qed.

Lemma upload_of_body (email : pystr) (audio : UploadFile) (w : world) :
  upload email audio w
  = match body email audio w with
    | (Ok r, w') => (Ok r, w')
    | (Raise e, w') => (new_json 500 (error_body e), w')
    end.
Proof. reflexivity. Qed.

Lemma audio_headers_lang (k corrected : pystr) :
  audio_headers k corrected !! py "X-Detected-Lang" = Some k.
Proof.
  unfold audio_headers. destruct (isascii corrected).
  - rewrite lookup_insert_ne by (vm_compute; discriminate).
    by rewrite lookup_singleton_eq.
  - by rewrite lookup_singleton_eq.
Qed.

Lemma audio_headers_text (k corrected : pystr) :
  audio_headers k corrected !! py "X-Corrected-Text"
  = if isascii corrected then Some corrected else None.
Proof.
  unfold audio_headers. destruct (isascii corrected).
  - by rewrite lookup_insert_eq.
  - rewrite lookup_singleton_ne; [done | vm_compute; discriminate].
Qed.


(** C3.  When the raw language resolves to a key, [correct_grammar]
    returns a corrected text and [tts_with_piper] returns audio, the
    endpoint answers with that audio, media type audio/wav and status 200;
    the X-Detected-Lang header is the key and an X-Corrected-Text header,
    if there is one, is the corrected text; the synthesis was entered and
    the engine called with the corrected text and with a writer set to
    1 channel, 2 bytes per sample and 22050 Hz that holds no frames yet.
    The body is the RIFF/WAVE file of PCM format the writer gives when it
    is closed: it says of itself the format the engine left the writer
    with and holds the frames written, so it is 1 channel, 16 bits and
    22050 Hz whenever the engine left the format as it was set. *)
Theorem upload_audio_supported_language
    (email : pystr) (audio : UploadFile) (w w2 w3 w4 : world)
    (b wav : bytes) (e1 : Env) (text raw k corrected : pystr) :
  audio_read audio (env w) = (Ok b, e1) ->
  stt b (after_read w e1) = (Ok (text, raw), w2) ->
  resolve raw = Some k ->
  correct text (Some k) w2 = (Ok corrected, w3) ->
  tts corrected k w3 = (Ok wav, w4) ->
  exists headers : gmap pystr pystr,
    upload email audio w = (Ok (Response wav (py "audio/wav") headers), w4)
    /\ status_of (Response wav (py "audio/wav") headers) = 200
    /\ headers !! py "X-Detected-Lang" = Some k
    /\ (forall v, headers !! py "X-Corrected-Text" = Some v -> v = corrected)
    /\ (exists loads,
          emitted (synthesize_wav_ev corrected true
                   :: loads ++ [tts_with_piper_ev corrected k]) w3 w4
          /\ Forall (fun ev => is_load ev = true) loads)
    /\ (exists (voice : PiperVoice) (e : Env) (wav_file : Wave_write),
          synthesize_wav voice corrected (mkWave 1 2 22050 []) e
          = (Ok wav_file, env w4)
          /\ piper_voices w4 !! effective_key k = Some voice
          /\ wave_close wav_file = Ok wav
          /\ length wav = (44 + length (datawritten wav_file))%nat
          /\ parse_wav wav
             = Some (mkWavInfo (nchannels wav_file) (sampwidth wav_file * 8)
                       (framerate wav_file)
                       (N.of_nat (length (datawritten wav_file)))
                       (datawritten wav_file))
          /\ (nchannels wav_file = 1 -> sampwidth wav_file = 2 ->
              framerate wav_file = 22050 ->
              parse_wav wav
              = Some (mkWavInfo 1 16 22050
                        (N.of_nat (length (datawritten wav_file)))
                        (datawritten wav_file)))).
Proof.
  intros H1 H2 H3 H4 H5. exists (audio_headers k corrected).
  split.
  { rewrite upload_of_body. erewrite body_supported by done.
    by rewrite H4, H5. }
  split; [done|]. split; [apply audio_headers_lang|]. split.
  { intros v. rewrite audio_headers_text.
    destruct (isascii corrected); by intros [= <-]. }
  apply tts_with_piper_ok in H5
    as (voice & w1 & wav_file & Hget & Hsyn & Hwav & Hcache & Htrace).
  split.
  - destruct (get_piper_voice_trace k
                (mkWorld (env w3) (piper_voices w3)
                   (tts_with_piper_ev corrected k :: trace w3)))
      as (loads & Hl & Floads).
    rewrite Hget in Hl. unfold emitted in *. simpl in Hl.
    exists loads. split; [|done].
    rewrite Htrace, Hl. simpl. by rewrite <- app_assoc.
  - exists voice, (env w1), wav_file. split; [exact Hsyn|].
    split; [rewrite Hcache; by eapply get_piper_voice_stores|].
    split; [done|].
    destruct (wave_close_parse wav_file wav Hwav) as (_ & Hlen & _ & Hparse).
    split; [done|]. split; [done|].
    intros Hn Hs Hf. by rewrite Hparse, Hn, Hs, Hf.
Qed.

(** C5.  On the path of a supported language the audio answer is given
    whatever the corrected text; its X-Corrected-Text header is the
    corrected text when that is pure ASCII and is missing otherwise. *)
Theorem upload_audio_corrected_text_header
    (email : pystr) (audio : UploadFile) (w w2 w3 w4 : world)
    (b wav : bytes) (e1 : Env) (text raw k corrected : pystr) :
  audio_read audio (env w) = (Ok b, e1) ->
  stt b (after_read w e1) = (Ok (text, raw), w2) ->
  resolve raw = Some k ->
  correct text (Some k) w2 = (Ok corrected, w3) ->
  tts corrected k w3 = (Ok wav, w4) ->
  exists headers : gmap pystr pystr,
    upload email audio w = (Ok (Response wav (py "audio/wav") headers), w4)
    /\ headers !! py "X-Corrected-Text"
       = (if isascii corrected then Some corrected else None)
    /\ (is_Some (headers !! py "X-Corrected-Text") <-> isascii corrected = true)
    /\ headers !! py "X-Detected-Lang" = Some k.
Proof.
  intros H1 H2 H3 H4 H5. exists (audio_headers k corrected).
  split.
  { rewrite upload_of_body. erewrite body_supported by done.
    by rewrite H4, H5. }
  split; [apply audio_headers_text|].
  split; [|apply audio_headers_lang].
  rewrite audio_headers_text. destruct (isascii corrected).
  - split; [done | by eexists].
  - split; [by intros [? ?] | done].
Qed.

Lemma upload_fault (email : pystr) (audio : UploadFile) (w w' : world)
    (e : Exception) :
  body email audio w = (Raise e, w') ->
  utf8_encodable (exc_str e) = true ->
  upload email audio w = (Ok (JSONResponse 500 (error_body e)), w').
Proof.
  intros Hbody He. rewrite upload_of_body, Hbody.
  rewrite new_json_ok; [done|]. by rewrite error_body_encodable.
Qed.

(** C4.  Whatever exception the body of the try block raises, be it from
    reading the upload, from transcription, from grammar correction or
    from synthesis, if its message holds no lone surrogate the answer is
    status 500 with the JSON object of error and the exception's message.
    No audio answer is given when the body raised, whatever the message;
    an audio answer is given only when the whole body has run, and then it
    is the complete output of [tts_with_piper]. *)
Theorem upload_audio_faults (email : pystr) (audio : UploadFile) (w : world) :
  (forall e w', body email audio w = (Raise e, w') ->
      utf8_encodable (exc_str e) = true ->
      upload email audio w
      = (Ok (JSONResponse 500 (JObject [(py "error", JStr (exc_str e))])), w'))
  /\ (forall e e1,
        audio_read audio (env w) = (Raise e, e1) ->
        utf8_encodable (exc_str e) = true ->
        (upload email audio w).1 = Ok (JSONResponse 500 (error_body e)))
  /\ (forall b e1 e w2,
        audio_read audio (env w) = (Ok b, e1) ->
        stt b (after_read w e1) = (Raise e, w2) ->
        utf8_encodable (exc_str e) = true ->
        (upload email audio w).1 = Ok (JSONResponse 500 (error_body e)))
  /\ (forall b e1 text raw w2 k e w3,
        audio_read audio (env w) = (Ok b, e1) ->
        stt b (after_read w e1) = (Ok (text, raw), w2) ->
        resolve raw = Some k ->
        correct text (Some k) w2 = (Raise e, w3) ->
        utf8_encodable (exc_str e) = true ->
        (upload email audio w).1 = Ok (JSONResponse 500 (error_body e)))
  /\ (forall b e1 text raw w2 k corrected w3 e w4,
        audio_read audio (env w) = (Ok b, e1) ->
        stt b (after_read w e1) = (Ok (text, raw), w2) ->
        resolve raw = Some k ->
        correct text (Some k) w2 = (Ok corrected, w3) ->
        tts corrected k w3 = (Raise e, w4) ->
        utf8_encodable (exc_str e) = true ->
        (upload email audio w).1 = Ok (JSONResponse 500 (error_body e)))
  /\ (forall e w', body email audio w = (Raise e, w') ->
        (upload email audio w).2 = w'
        /\ forall content media_type headers,
             (upload email audio w).1
             <> Ok (Response content media_type headers))
  /\ (forall content media_type headers w',
        upload email audio w = (Ok (Response content media_type headers), w') ->
        body email audio w = (Ok (Response content media_type headers), w')
        /\ exists corrected k w3, tts corrected k w3 = (Ok content, w')).
Proof.
  split; [|split; [|split; [|split; [|split; [|split]]]]].
  - intros e w' H He. by apply upload_fault.
  - intros e e1 H He. by erewrite upload_fault; [|by apply body_read_fault|].
  - intros b e1 e w2 H1 H2 He.
    by erewrite upload_fault; [|by eapply body_stt_fault|].
  - intros b e1 text raw w2 k e w3 H1 H2 H3 H4 He.
    erewrite upload_fault; [done| |done].
    erewrite body_supported by done. by rewrite H4.
  - intros b e1 text raw w2 k corrected w3 e w4 H1 H2 H3 H4 H5 He.
    erewrite upload_fault; [done| |done].
    erewrite body_supported by done. by rewrite H4, H5.
  - intros e w' H. rewrite upload_of_body, H. unfold new_JSONResponse.
    destruct (json_encodable (error_body e)); split; try done.
  - intros content media_type headers w'. rewrite upload_of_body.
    destruct (body email audio w) as [[r|e] w1] eqn:Hbody.
    2:{ unfold new_JSONResponse. by destruct (json_encodable (error_body e)). }
    intros [= -> ->]. split; [done|].
    revert Hbody. unfold upload_audio_body, bind at 1, extcall.
    destruct (audio_read audio (env w)) as [[b|e] e1]; [|done]. simpl.
    unfold bind at 1.
    destruct (stt b _) as [[[text raw]|e] w2]; [|done]. simpl.
    destruct (resolve raw) as [k|].
    2:{ unfold lift, new_JSONResponse. by destruct (json_encodable _). }
    unfold bind at 1.
    destruct (correct text (Some k) w2) as [[corrected|e] w3]; [|done].
    unfold bind at 1.
    destruct (tts corrected k w3) as [[wav|e] w4] eqn:Htts; [|done].
    unfold ret. intros [= <- _ _ <-]. by exists corrected, k, w3.
Qed.

(** C10.  [stt_with_whisper] returns the text of the service stripped of
    leading and trailing whitespace, the empty text when the service gives
    none, and the raw language "en" when the service gives none.  Hence
    the original_text of a status-200 JSON answer is stripped, every text
    handed to [correct_grammar] during a request is stripped, and for a
    key without grammar engine the stripped text itself goes on into
    [tts_with_piper]. *)
Theorem stt_with_whisper_strips :
  (forall (b : bytes) (w w' : world) (text raw : pystr),
      stt b w = (Ok (text, raw), w') -> stripped text)
  /\ (forall (b : bytes) (w : world) (tmp_path : pystr) (r : WhisperResult)
             (e1 e2 : Env),
        tempfile_write b (env w) = (Ok tmp_path, e1) ->
        whisper_transcribe tmp_path e1 = (Ok r, e2) ->
        (stt b w).1
        = Ok (strip (default (py "") (result_text r)),
              default (py "en") (result_language r)))
  /\ (forall (email : pystr) (audio : UploadFile) (w w' : world)
             (fields : list (pystr * json)) (t : pystr),
        upload email audio w = (Ok (JSONResponse 200 (JObject fields)), w') ->
        json_field (py "original_text") fields = Some (JStr t) ->
        stripped t)
  /\ (forall (email : pystr) (audio : UploadFile) (w : world),
        exists evs, emitted evs w (upload email audio w).2
          /\ forall t key, In (correct_grammar_ev t key) evs -> stripped t)
  /\ (forall (email : pystr) (audio : UploadFile) (w w2 : world)
             (b : bytes) (e1 : Env) (text raw k : pystr),
        audio_read audio (env w) = (Ok b, e1) ->
        stt b (after_read w e1) = (Ok (text, raw), w2) ->
        resolve raw = Some k -> k <> py "en" -> k <> py "de" ->
        stripped text
        /\ exists evs,
             emitted (evs ++ [tts_with_piper_ev text k;
                              correct_grammar_ev text (Some k)])
               w2 (upload email audio w).2).
Proof.
  assert (forall (b : bytes) (w w' : world) (text raw : pystr),
             stt b w = (Ok (text, raw), w') -> stripped text) as Hstrip.
  { intros b w w' text raw H.
    apply stt_with_whisper_ok in H as (? & r & ? & ? & _ & _ & -> & _).
    apply strip_stripped. }
  split; [exact Hstrip|]. split; [|split; [|split]].
  - intros b w tmp_path r e1 e2 H1 H2.
    by erewrite stt_with_whisper_run.
  - intros email audio w w' fields t. rewrite upload_of_body.
    destruct (body email audio w) as [[r|e] w1] eqn:Hbody.
    2:{ unfold new_JSONResponse. by destruct (json_encodable (error_body e)). }
    intros [= -> ->]. revert Hbody.
    unfold upload_audio_body, bind at 1, extcall.
    destruct (audio_read audio (env w)) as [[b|e] e1]; [|done]. simpl.
    unfold bind at 1.
    destruct (stt b _) as [[[text raw]|e] w2] eqn:Hstt; [|done]. simpl.
    destruct (resolve raw) as [k|].
    + unfold bind at 1.
      destruct (correct text (Some k) w2) as [[corrected|e] w3]; [|done].
      unfold bind at 1.
      by destruct (tts corrected k w3) as [[wav|e] w4].
    + unfold lift, new_JSONResponse.
      destruct (json_encodable _); [|done].
      intros [= <- _]. simpl. intros [= <-].
      by eapply Hstrip.
  - intros email audio w.
    destruct (emits_upload email audio w) as [(evs & Hevs & F) _].
    exists evs. split; [done|]. intros t key Hin.
    rewrite Forall_forall in F. apply list_elem_of_In in Hin.
    by apply (F _ Hin).
  - intros email audio w w2 b e1 text raw k H1 H2 H3 Hen Hde.
    split; [by eapply Hstrip|].
    rewrite upload_of_body. erewrite body_supported by done.
    assert (correct text (Some k) w2
            = (Ok text, mkWorld (env w2) (piper_voices w2)
                          (correct_grammar_ev text (Some k) :: trace w2))) as ->.
    { unfold correct_grammar, bind, enter. simpl.
      rewrite !bool_decide_eq_false_2; [done | congruence | congruence]. }
    set (w3 := mkWorld _ _ _).
    destruct (tts_with_piper_trace text k w3) as (evs & Hevs & _).
    exists evs. unfold emitted in *.
    assert (trace (tts text k w3).2
            = (evs ++ [tts_with_piper_ev text k; correct_grammar_ev text (Some k)])
              ++ trace w2) as Ht
      by (rewrite Hevs; subst w3; simpl; by rewrite <- !app_assoc).
    by destruct (tts text k w3) as [[wav|e] w4].
Qed.

(* ------------------------------------------------------------------- *)
(*  Language gate                                                      *)
(* ------------------------------------------------------------------- *)

Lemma lower_ascii2 (a b : pychar) (rest : pystr) :
  is_ascii_char a = true -> is_ascii_char b = true ->
  lower_ (a :: b :: rest) =
    ascii_lower a :: ascii_lower b :: lower_from unicode_lower [b; a] rest.
Proof. intros Ha Hb. unfold lower. simpl. by rewrite Ha, Hb. Qed.

Lemma resolve_ascii2 (a b : pychar) (rest : pystr) :
  is_ascii_char a = true -> is_ascii_char b = true ->
  resolve (a :: b :: rest) =
    if (ascii_lower a =? 101) && (ascii_lower b =? 110) then Some (py "en")
    else if (ascii_lower a =? 100) && (ascii_lower b =? 101) then Some (py "de")
    else if (ascii_lower a =? 116) && (ascii_lower b =? 114) then Some (py "tr")
    else None.
Proof.
  intros Ha Hb. unfold detect_lang_for_tts.
  rewrite lower_ascii2 by done. cbn [startswith py map list_ascii_of_string].
  change (N_of_ascii "e") with 101. change (N_of_ascii "n") with 110.
  change (N_of_ascii "d") with 100. change (N_of_ascii "t") with 116.
  change (N_of_ascii "r") with 114.
  by rewrite !andb_true_r.
Qed.

Lemma resolve_range (c : pystr) :
  resolve c = None \/ resolve c = Some (py "en")
  \/ resolve c = Some (py "de") \/ resolve c = Some (py "tr").
Proof.
  unfold detect_lang_for_tts. destruct c; [right; left; done|].
  repeat case_match; auto.
Qed.

(** C2.  The language gate is a total function of the raw code alone,
    with values among None, "en", "de", "tr".  The empty code gives the
    default key, "EN-us" gives "en", "pt-BR" gives None and "deu" gives
    "de".  Only the leading characters matter and their case does not;
    a non-empty code whose lower-cased form starts with none of the three
    prefixes gives None. *)
Theorem detect_lang_for_tts_gate :
  (forall c : pystr, exists r : option pystr,
      resolve c = r /\
      (r = None \/ r = Some (py "en") \/ r = Some (py "de") \/ r = Some (py "tr")))
  /\ resolve (py "") = Some DEFAULT_LANG
  /\ resolve (py "EN-us") = Some (py "en")
  /\ resolve (py "pt-BR") = None
  /\ resolve (py "deu") = Some (py "de")
  /\ (forall (a b : pychar) (rest rest' : pystr),
        is_ascii_char a = true -> is_ascii_char b = true ->
        resolve (a :: b :: rest) = resolve (a :: b :: rest'))
  /\ (forall (a b : pychar) (rest : pystr),
        is_ascii_char a = true -> is_ascii_char b = true ->
        resolve (ascii_upper a :: ascii_upper b :: rest) = resolve (a :: b :: rest))
  /\ (forall c : pystr,
        c <> [] ->
        startswith (lower_ c) (py "en") = false ->
        startswith (lower_ c) (py "de") = false ->
        startswith (lower_ c) (py "tr") = false ->
        resolve c = None)
  /\ (forall (c : pystr) (k : pystr),
        c <> [] -> resolve c = Some k -> startswith (lower_ c) k = true).
Proof.
  split; [intros c; exists (resolve c); split; [done | apply resolve_range]|].
  do 4 (split; [reflexivity|]).
  split; [intros a b rest rest' Ha Hb; by rewrite !resolve_ascii2|].
  split.
  { intros a b rest Ha Hb.
    rewrite !resolve_ascii2 by auto using ascii_upper_is_ascii.
    by rewrite !ascii_lower_upper. }
  split.
  - intros c Hc H1 H2 H3. unfold detect_lang_for_tts.
    destruct c; [done|]. by rewrite H1, H2, H3.
  - intros c k Hc. unfold detect_lang_for_tts. destruct c; [done|].
    repeat case_match; intros [= <-]; done.
Qed.

End Properties.

(* ===================================================================== *)
(*  The theorems at work on the concrete deployment                      *)
(* ===================================================================== *)



Lemma detect_lang_for_tts_gate_witness :
  detect_lang_for_tts Demo.unicode_lower (py "EN-us")
  = detect_lang_for_tts Demo.unicode_lower (py "ENGLISH")
  /\ detect_lang_for_tts Demo.unicode_lower (py "DEu")
     = detect_lang_for_tts Demo.unicode_lower (py "deu")
  /\ detect_lang_for_tts Demo.unicode_lower (py "pt-BR") = None
  /\ startswith (lower Demo.unicode_lower (py "Tr-tr")) (py "tr") = true.
Proof.
  destruct (detect_lang_for_tts_gate Demo.unicode_lower)
    as (_ & _ & _ & _ & _ & Hlead & Hcase & Hnone & Hsome).
  split; [|split; [|split]].
  - apply (Hlead 69 78 (py "-us") (py "GLISH")); reflexivity.
  - apply (Hcase 100 101 (py "u")); reflexivity.
  - apply Hnone; [discriminate | reflexivity | reflexivity | reflexivity].
  - apply Hsome; [discriminate | reflexivity].
Defined.

Lemma upload_audio_supported_language_witness :
  exists (wav : bytes) (headers : gmap pystr pystr) (w4 : World N N),
    Demo.upload_audio Demo.heard_en (py "I have an apple")
      Demo.email Demo.audio Demo.start
    = (Ok (Response wav (py "audio/wav") headers), w4)
    /\ headers !! py "X-Detected-Lang" = Some (py "en")
    /\ (forall v, headers !! py "X-Corrected-Text" = Some v ->
          v = py "I have an apple")
    /\ exists info, parse_wav wav = Some info.
Proof.
  pose (w2 := (Demo.stt_with_whisper Demo.heard_en [x1a; x45; xdf; xa3]
                 (Demo.read_done Demo.start)).2).
  pose (w3 := (Demo.correct_grammar (py "I have an apple")
                 (py "i has a apple") (Some (py "en")) w2).2).
  pose (out := Demo.tts_with_piper (py "I have an apple") (py "en") w3).
  pose (wav := match out.1 with Ok b => b | Raise _ => [] end).
  destruct (upload_audio_supported_language
              Demo.unicode_lower Demo.audio_read Demo.tempfile_write
              (Demo.whisper_transcribe Demo.heard_en) Demo.lt_check
              (Demo.lt_utils_correct (py "I have an apple"))
              Demo.PiperVoice_load Demo.synthesize_wav Demo.render_error
              Demo.email Demo.audio Demo.start w2 w3 out.2
              [x1a; x45; xdf; xa3] wav 1
              (py "i has a apple") (py "en") (py "en") (py "I have an apple"))
    as (headers & Hrun & _ & Hlang & Htext & _
        & (voice & e & wav_file & _ & _ & _ & _ & Hwav & _)).
  - reflexivity.
  - vm_compute. reflexivity.
  - reflexivity.
  - vm_compute. reflexivity.
  - vm_compute. reflexivity.
  - exists wav, headers, out.2. repeat split; try done. by eexists.
Defined.

(** With an engine that sets the writer to 16000 Hz before it writes, the
    audio answer is a WAV file of 16000 Hz. *)
Lemma upload_audio_supported_language_counterexample :
  exists (wav : bytes) (headers : gmap pystr pystr) (w4 : World N N),
    DemoFaults.upload_audio_16k Demo.heard_en (py "I have an apple")
      Demo.email Demo.audio Demo.start
    = (Ok (Response wav (py "audio/wav") headers), w4)
    /\ parse_wav wav = Some (mkWavInfo 1 16 16000 4 [x01; x00; x02; x00]).
Proof.
  pose (out := DemoFaults.upload_audio_16k Demo.heard_en (py "I have an apple")
                 Demo.email Demo.audio Demo.start).
  exists (match out.1 with Ok (Response c _ _) => c | _ => [] end),
         (match out.1 with Ok (Response _ _ h) => h | _ => ∅ end), out.2.
  split; vm_compute; reflexivity.
Qed.

Lemma upload_audio_faults_witness :
  (Demo.upload_audio Demo.heard_en (py "I have an apple")
     Demo.email Demo.unreadable Demo.start).1
  = Ok (JSONResponse 500
          (error_body (mkException (py "OSError") (py "read failed"))))
  /\ (Demo.upload_audio Demo.heard_en (py "I have an apple")
        Demo.email Demo.audio Demo.start_missing).1
     = Ok (JSONResponse 500 (error_body Demo.missing_model)).
Proof.
  split.
  - destruct (upload_audio_faults
                Demo.unicode_lower Demo.audio_read Demo.tempfile_write
                (Demo.whisper_transcribe Demo.heard_en) Demo.lt_check
                (Demo.lt_utils_correct (py "I have an apple"))
                Demo.PiperVoice_load Demo.synthesize_wav Demo.render_error
                Demo.email Demo.unreadable Demo.start)
      as (_ & Hread & _).
    apply (Hread _ 1); reflexivity.
  - destruct (upload_audio_faults
                Demo.unicode_lower Demo.audio_read Demo.tempfile_write
                (Demo.whisper_transcribe Demo.heard_en) Demo.lt_check
                (Demo.lt_utils_correct (py "I have an apple"))
                Demo.PiperVoice_load Demo.synthesize_wav Demo.render_error
                Demo.email Demo.audio Demo.start_missing)
      as (_ & _ & _ & _ & Htts & _).
    pose (w2 := (Demo.stt_with_whisper Demo.heard_en [x1a; x45; xdf; xa3]
                   (Demo.read_done Demo.start_missing)).2).
    pose (w3 := (Demo.correct_grammar (py "I have an apple")
                   (py "i has a apple") (Some (py "en")) w2).2).
    apply (Htts [x1a; x45; xdf; xa3] 0 (py "i has a apple") (py "en") w2
             (py "en") (py "I have an apple") w3 Demo.missing_model
             (Demo.tts_with_piper (py "I have an apple") (py "en") w3).2).
    + reflexivity.
    + vm_compute. reflexivity.
    + reflexivity.
    + vm_compute. reflexivity.
    + vm_compute. reflexivity.
    + reflexivity.
Defined.

(** When reading the upload fails with a message that holds a lone
    surrogate, the exception raised while the error answer is built leaves
    the endpoint: no status-500 JSON answer is given. *)
Lemma upload_audio_faults_counterexample :
  (DemoFaults.upload_audio_garbled Demo.heard_en (py "I have an apple")
     Demo.email Demo.audio Demo.start).1
  = Raise (Demo.render_error (error_body DemoFaults.garbled_read)).
Proof. vm_compute. reflexivity. Qed.

Lemma upload_audio_corrected_text_header_witness :
  exists (wav : bytes) (headers : gmap pystr pystr) (w4 : World N N),
    Demo.upload_audio Demo.heard_en Demo.angstrom
      Demo.email Demo.audio Demo.start
    = (Ok (Response wav (py "audio/wav") headers), w4)
    /\ headers !! py "X-Corrected-Text" = None
    /\ headers !! py "X-Detected-Lang" = Some (py "en").
Proof.
  pose (w2 := (Demo.stt_with_whisper Demo.heard_en [x1a; x45; xdf; xa3]
                 (Demo.read_done Demo.start)).2).
  pose (w3 := (Demo.correct_grammar Demo.angstrom
                 (py "i has a apple") (Some (py "en")) w2).2).
  pose (out := Demo.tts_with_piper Demo.angstrom (py "en") w3).
  pose (wav := match out.1 with Ok b => b | Raise _ => [] end).
  destruct (upload_audio_corrected_text_header
              Demo.unicode_lower Demo.audio_read Demo.tempfile_write
              (Demo.whisper_transcribe Demo.heard_en) Demo.lt_check
              (Demo.lt_utils_correct Demo.angstrom)
              Demo.PiperVoice_load Demo.synthesize_wav Demo.render_error
              Demo.email Demo.audio Demo.start w2 w3 out.2
              [x1a; x45; xdf; xa3] wav 1
              (py "i has a apple") (py "en") (py "en") Demo.angstrom)
    as (headers & Hrun & Htext & _ & Hlang).
  - reflexivity.
  - vm_compute. reflexivity.
  - reflexivity.
  - vm_compute. reflexivity.
  - vm_compute. reflexivity.
  - exists wav, headers, out.2. split; [exact Hrun|]. split; [exact Htext | exact Hlang].
Defined.

Lemma correct_grammar_identity_witness :
  Demo.correct_grammar (py "I have an apple") (py " merhaba") (Some (py "tr"))
    Demo.start
  = (Ok (py " merhaba"),
     mkWorld 1 ∅ [correct_grammar_ev (py " merhaba") (Some (py "tr"))]).
Proof.
  destruct (@correct_grammar_identity N N unit Demo.lt_check
              (Demo.lt_utils_correct (py "I have an apple")))
    as (_ & _ & Hid).
  apply (Hid (py " merhaba") (Some (py "tr")) Demo.start).
  - intros H. vm_compute in H. discriminate H.
  - intros H. vm_compute in H. discriminate H.
Defined.

Lemma piper_voices_memoized_witness :
  Demo.get_piper_voice (py "en") (Demo.get_piper_voice (py "en") Demo.start).2
  = (Ok 1, (Demo.get_piper_voice (py "en") Demo.start).2)
  /\ (successful_loads (py "models/en_US-kristin-medium.onnx")
        (trace (Demo.get_piper_voice (py "en")
                  (Demo.get_piper_voice (py "en") Demo.start).2).2)
      <= 1)%nat.
Proof.
  destruct (piper_voices_memoized
              Demo.unicode_lower Demo.audio_read Demo.tempfile_write
              (Demo.whisper_transcribe Demo.heard_en) Demo.lt_check
              (Demo.lt_utils_correct (py "I have an apple"))
              Demo.PiperVoice_load Demo.synthesize_wav Demo.render_error)
    as (Hsame & _ & _ & Hloads & _ & _).
  split.
  - apply (Hsame (py "en") Demo.start). vm_compute. reflexivity.
  - apply (Hloads _ (py "en")); [|vm_compute; reflexivity].
    exists 1. eapply rtc_l; [apply step_get|].
    eapply rtc_l; [apply step_get|]. apply rtc_refl.
Defined.

Lemma get_piper_voice_load_failure_witness :
  (Demo.get_piper_voice (py "en") Demo.start_missing).1
  = Raise Demo.missing_model
  /\ piper_voices (Demo.get_piper_voice (py "en") Demo.start_missing).2 = ∅
  /\ (Demo.get_piper_voice (py "en")
        (Demo.get_piper_voice (py "en") Demo.start_missing).2).1 = Ok 1.
Proof.
  destruct (get_piper_voice_load_failure Demo.PiperVoice_load
              (py "en") (py "models/en_US-kristin-medium.onnx")
              Demo.start_missing Demo.missing_model 1)
    as (Hraise & Hcache & _ & _ & Hretry).
  - vm_compute. reflexivity.
  - vm_compute. reflexivity.
  - vm_compute. reflexivity.
  - split; [exact Hraise|]. split; [exact Hcache|].
    apply (Hretry _ (Ok 1) 2); [reflexivity | vm_compute; reflexivity].
Defined.

Lemma get_piper_voice_default_fallback_witness :
  effective_key (py "pt") = DEFAULT_LANG
  /\ Demo.get_piper_voice (py "pt") Demo.start
     = Demo.get_piper_voice DEFAULT_LANG Demo.start.
Proof.
  destruct (get_piper_voice_default_fallback Demo.PiperVoice_load)
    as (_ & Hfall).
  destruct (Hfall (py "pt")) as (Heff & Hsame & _).
  - vm_compute. reflexivity.
  - split; [exact Heff | apply Hsame].
Defined.

Lemma stt_with_whisper_strips_witness :
  (Demo.stt_with_whisper Demo.heard_no_language [x1a; x45; xdf; xa3]
     Demo.start).1
  = Ok (py "hello there", py "en")
  /\ stripped (py "merhaba").
Proof.
  destruct (stt_with_whisper_strips
              Demo.unicode_lower Demo.audio_read Demo.tempfile_write
              (Demo.whisper_transcribe Demo.heard_no_language) Demo.lt_check
              (Demo.lt_utils_correct (py "I have an apple"))
              Demo.PiperVoice_load Demo.synthesize_wav Demo.render_error)
    as (_ & Hrun & _).
  destruct (stt_with_whisper_strips
              Demo.unicode_lower Demo.audio_read Demo.tempfile_write
              (Demo.whisper_transcribe Demo.heard_tr) Demo.lt_check
              (Demo.lt_utils_correct (py "I have an apple"))
              Demo.PiperVoice_load Demo.synthesize_wav Demo.render_error)
    as (Hstrip & _).
  split.
  - apply (Hrun [x1a; x45; xdf; xa3] Demo.start (py "/tmp/tmp0.webm")
             Demo.heard_no_language 1 1); reflexivity.
  - apply (Hstrip [x1a; x45; xdf; xa3] Demo.start
             (Demo.stt_with_whisper Demo.heard_tr [x1a; x45; xdf; xa3] Demo.start).2
             (py "merhaba") (py "tr")).
    vm_compute. reflexivity.
Defined.

(* ===================================================================== *)
(*  Further properties of the string helpers                             *)
(* ===================================================================== *)

Lemma lstrip_split (s : pystr) :
  exists pre, s = pre ++ lstrip s /\ all_space pre.
Proof.
  induction s as [|c s (pre & Hs & Hpre)]; simpl.
  - exists []. split; [done | constructor].
  - destruct (isspace c) eqn:Hc.
    + exists (c :: pre). split; [simpl; by f_equal | by constructor].
    + exists []. split; [done | constructor].
Qed.

Lemma rstrip_split (s : pystr) :
  exists post, s = rstrip s ++ post /\ all_space post.
Proof.
  destruct (lstrip_split (reverse s)) as (pre & Hs & Hpre).
  exists (reverse pre). split.
  - unfold rstrip. rewrite <- reverse_app, <- Hs. by rewrite reverse_involutive.
  - unfold all_space. by apply Forall_reverse.
Qed.

Lemma strip_split (s : pystr) :
  exists pre post, s = pre ++ strip s ++ post /\ all_space pre /\ all_space post.
Proof.
  destruct (lstrip_split s) as (pre & Hs & Hpre).
  destruct (rstrip_split (lstrip s)) as (post & Hl & Hpost).
  exists pre, post. split; [|done]. unfold strip. by rewrite <- Hl.
Qed.

Lemma lstrip_all_space (s : pystr) : all_space s -> lstrip s = [].
Proof.
  induction 1 as [|c s Hc _ IH]; simpl; [done|]. by rewrite Hc.
Qed.

Lemma strip_empty_iff (s : pystr) : strip s = [] <-> all_space s.
Proof.
  split.
  - intros Hs. destruct (strip_split s) as (pre & post & -> & Hpre & Hpost).
    rewrite Hs. simpl. by apply Forall_app.
  - intros Hs. unfold strip. by rewrite (lstrip_all_space s Hs).
Qed.

Lemma strip_of_stripped (s : pystr) : stripped s -> strip s = s.
Proof.
  intros [Hfirst Hlast].
  assert (lstrip s = s) as Hl.
  { destruct s as [|c s]; [done|]. simpl.
    by rewrite (Hfirst c eq_refl). }
  unfold strip. rewrite Hl. unfold rstrip.
  assert (lstrip (reverse s) = reverse s) as Hr.
  { destruct (reverse s) as [|c r] eqn:Hrev; [done|]. simpl.
    assert (last s = Some c) as Hc.
    { rewrite <- (reverse_involutive s), Hrev. by rewrite last_reverse. }
    by rewrite (Hlast c Hc). }
  by rewrite Hr, reverse_involutive.
Qed.

(* ===================================================================== *)
(*  Further properties of the pipeline                                   *)
(* ===================================================================== *)

Section Further.

Context {Env PiperVoice UploadFile Matches : Type}.
Context (unicode_lower : pystr -> pychar -> pystr -> pystr).
Context (audio_read : UploadFile -> Env -> outcome bytes * Env).
Context (tempfile_write : bytes -> Env -> outcome pystr * Env).
Context (whisper_transcribe : pystr -> Env -> outcome WhisperResult * Env).
Context (lt_check : LanguageTool -> pystr -> Env -> outcome Matches * Env).
Context (lt_utils_correct : pystr -> Matches -> Env -> outcome pystr * Env).
Context (PiperVoice_load : pystr -> Env -> outcome PiperVoice * Env).
Context (synthesize_wav :
           PiperVoice -> pystr -> Wave_write -> Env -> outcome Wave_write * Env).
Context (render_error : json -> Exception).

Local Abbreviation world := (World Env PiperVoice).
Local Abbreviation resolve := (detect_lang_for_tts unicode_lower).
Local Abbreviation stt := (stt_with_whisper Env PiperVoice tempfile_write whisper_transcribe).
Local Abbreviation correct := (correct_grammar Env PiperVoice Matches lt_check lt_utils_correct).
Local Abbreviation get_voice := (get_piper_voice Env PiperVoice PiperVoice_load).
Local Abbreviation tts := (tts_with_piper Env PiperVoice PiperVoice_load synthesize_wav).
Local Abbreviation body :=
  (upload_audio_body Env PiperVoice UploadFile Matches unicode_lower audio_read
     tempfile_write whisper_transcribe lt_check lt_utils_correct
     PiperVoice_load synthesize_wav render_error).
Local Abbreviation upload :=
  (upload_audio Env PiperVoice UploadFile Matches unicode_lower audio_read
     tempfile_write whisper_transcribe lt_check lt_utils_correct
     PiperVoice_load synthesize_wav render_error).
Local Abbreviation reachable_ :=
  (reachable Env PiperVoice UploadFile Matches unicode_lower audio_read
     tempfile_write whisper_transcribe lt_check lt_utils_correct
     PiperVoice_load synthesize_wav render_error).
Local Abbreviation pcm_writer :=
  (setframerate 22050 (setsampwidth 2 (setnchannels 1 wave_open_wb))).
Local Abbreviation after_read w e1 :=
  (mkWorld e1 (piper_voices w) (audio_read_ev true :: trace w)).
Local Abbreviation entered_tts w text key :=
  (mkWorld (env w) (piper_voices w) (tts_with_piper_ev text key :: trace w)).

(** Case analysis on everything a run depends on: the outcomes of the
    outside services, the cache lookups and the tests on the key. *)
Ltac split_run :=
  cbn [fst snd trace env piper_voices];
  repeat match goal with
         | |- context [match ?x with _ => _ end] =>
             lazymatch x with
             | context [trace] => fail
             | _ => destruct x eqn:?; cbn [fst snd trace env piper_voices]
             end
         end.

(** The events a run has added, read off its final trace. *)
Ltac give_events :=
  first [ (exists []; split; [reflexivity|])
        | (eexists [_]; split; [reflexivity|])
        | (eexists [_; _]; split; [reflexivity|])
        | (eexists [_; _; _]; split; [reflexivity|])
        | (eexists [_; _; _; _]; split; [reflexivity|])
        | (eexists [_; _; _; _; _]; split; [reflexivity|])
        | (eexists [_; _; _; _; _; _]; split; [reflexivity|])
        | (eexists [_; _; _; _; _; _; _]; split; [reflexivity|])
        | (eexists [_; _; _; _; _; _; _; _]; split; [reflexivity|])
        | (eexists [_; _; _; _; _; _; _; _; _]; split; [reflexivity|]) ].

Ltac unfold_run :=
  unfold upload_audio, try_except, upload_audio_body, stt_with_whisper,
    correct_grammar, tts_with_piper, get_piper_voice, bind, extcall, enter,
    lift, lookup_voice, store_voice, ret, emitted, new_JSONResponse.

(* ------------------------------------------------------------------- *)
(*  Language gate and model table                                      *)
(* ------------------------------------------------------------------- *)

Lemma resolve_key_cases (c k : pystr) :
  resolve c = Some k -> k = py "en" \/ k = py "de" \/ k = py "tr".
Proof.
  intros H. destruct (resolve_range unicode_lower c) as [E|[E|[E|E]]];
    rewrite E in H; [done| | |]; injection H as <-; auto.
Qed.

(** X1.  Every key the language gate returns is a key of PIPER_MODELS, so
    [get_piper_voice] never substitutes the default for it, and the gate
    maps it to itself; conversely the gate maps every key of PIPER_MODELS
    to itself. *)
Theorem detect_lang_for_tts_configured :
  (forall c k : pystr,
      resolve c = Some k ->
      is_Some (PIPER_MODELS !! k) /\ effective_key k = k /\ resolve k = Some k)
  /\ (forall k : pystr, is_Some (PIPER_MODELS !! k) -> resolve k = Some k).
Proof.
  split.
  - intros c k H.
    destruct (resolve_key_cases c k H) as [-> | [-> | ->]];
      (split; [eexists; vm_compute; reflexivity | split; reflexivity]).
  - intros k [p Hp].
    destruct (PIPER_MODELS_lookup k p Hp) as [[-> _]|[[-> _]|[-> _]]];
      reflexivity.
Qed.

(* ------------------------------------------------------------------- *)
(*  Transcription                                                      *)
(* ------------------------------------------------------------------- *)

(** X2.  The text [stt_with_whisper] returns is the text of the service
    with whitespace taken off both ends and nothing else changed: it is
    empty exactly when the service's text is all whitespace (or missing),
    and it is the service's text when that is already stripped. *)
Theorem stt_with_whisper_trims
    (b : bytes) (w : world) (tmp_path : pystr) (r : WhisperResult) (e1 e2 : Env) :
  tempfile_write b (env w) = (Ok tmp_path, e1) ->
  whisper_transcribe tmp_path e1 = (Ok r, e2) ->
  exists text raw pre post : pystr,
    (stt b w).1 = Ok (text, raw)
    /\ dict_get (result_text r) (py "") = pre ++ text ++ post
    /\ all_space pre /\ all_space post
    /\ (text = [] <-> all_space (dict_get (result_text r) (py "")))
    /\ (stripped (dict_get (result_text r) (py "")) ->
        text = dict_get (result_text r) (py "")).
Proof.
  intros H1 H2.
  rewrite (stt_with_whisper_run tempfile_write whisper_transcribe
             b w tmp_path r e1 e2 H1 H2).
  destruct (strip_split (dict_get (result_text r) (py "")))
    as (pre & post & Hs & Hpre & Hpost).
  eexists _, _, pre, post. split; [reflexivity|].
  split; [exact Hs|]. split; [done|]. split; [done|].
  split; [apply strip_empty_iff | apply strip_of_stripped].
Qed.

(* ------------------------------------------------------------------- *)
(*  Voice cache                                                        *)
(* ------------------------------------------------------------------- *)

(** X3.  In every state of a process lifetime the cache holds handles
    under the keys "en", "de" and "tr" only, hence at most three. *)
Theorem reachable_cache_bounded (w : world) :
  reachable_ w ->
  (size (piper_voices w) <= 3)%nat
  /\ (forall k v, piper_voices w !! k = Some v ->
        k = py "en" \/ k = py "de" \/ k = py "tr").
Proof.
  intros Hw.
  apply (reachable_consistent unicode_lower audio_read tempfile_write
           whisper_transcribe lt_check lt_utils_correct PiperVoice_load
           synthesize_wav render_error) in Hw as [Hdom _].
  split.
  - assert (dom (piper_voices w) ⊆ dom PIPER_MODELS) as Hsub.
    { intros k. rewrite !elem_of_dom. intros [v Hv]. by eapply Hdom. }
    apply subseteq_size in Hsub. rewrite !size_dom in Hsub.
    assert (size PIPER_MODELS = 3%nat) as Hsize by (vm_compute; reflexivity).
    lia.
  - intros k v Hk. destruct (Hdom k v Hk) as [p Hp].
    destruct (PIPER_MODELS_lookup k p Hp) as [[-> _]|[[-> _]|[-> _]]]; auto.
Qed.

(** X4.  Only [get_piper_voice] writes the cache, and only under the key
    it works with: [stt_with_whisper] and [correct_grammar] leave the
    cache as it is; [get_piper_voice] leaves every other key's entry as it
    is, stores the handle it returns, and changes nothing when it raises. *)
Theorem piper_voices_written_by_get_only :
  (forall (b : bytes) (w : world), piper_voices (stt b w).2 = piper_voices w)
  /\ (forall (t : pystr) (key : option pystr) (w : world),
        piper_voices (correct t key w).2 = piper_voices w)
  /\ (forall (k k' : pystr) (w : world),
        k' <> effective_key k ->
        piper_voices (get_voice k w).2 !! k' = piper_voices w !! k')
  /\ (forall (k : pystr) (w : world) (v : PiperVoice),
        (get_voice k w).1 = Ok v ->
        piper_voices (get_voice k w).2 !! effective_key k = Some v)
  /\ (forall (k : pystr) (w : world) (e : Exception),
        (get_voice k w).1 = Raise e ->
        piper_voices (get_voice k w).2 = piper_voices w).
Proof.
  split; [|split; [|split; [|split]]].
  - intros b w. unfold stt_with_whisper, bind, extcall, ret.
    destruct (tempfile_write b (env w)) as [[p|e] e1]; [|done]. simpl.
    by destruct (whisper_transcribe p e1) as [[r|e] e2].
  - intros t key w. unfold_run. split_run; done.
  - intros k k' w Hne.
    destruct (get_piper_voice_unfold PiperVoice_load k) as (p & _ & ->).
    destruct (piper_voices w !! effective_key k); [done|].
    destruct (PiperVoice_load p (env w)) as [[v|e] e']; simpl; [|done].
    by rewrite lookup_insert_ne.
  - intros k w v H.
    destruct (get_voice k w) as [r w1] eqn:Hget. simpl in H. subst r.
    simpl. by eapply get_piper_voice_stores.
  - intros k w e.
    destruct (get_piper_voice_unfold PiperVoice_load k) as (p & _ & ->).
    destruct (piper_voices w !! effective_key k); [done|].
    by destruct (PiperVoice_load p (env w)) as [[v|e0] e'].
Qed.

(* ------------------------------------------------------------------- *)
(*  Synthesis                                                          *)
(* ------------------------------------------------------------------- *)

(** X5.  Once [get_piper_voice] has returned a voice inside
    [tts_with_piper], the voice stays cached whatever becomes of the
    synthesis: a fault of the engine or of the WAV writer does not undo
    the load. *)
Theorem tts_with_piper_keeps_voice
    (text key : pystr) (w w1 : world) (voice : PiperVoice) :
  get_voice key (entered_tts w text key) = (Ok voice, w1) ->
  piper_voices (tts text key w).2 = piper_voices w1
  /\ piper_voices (tts text key w).2 !! effective_key key = Some voice.
Proof.
  intros Hget.
  assert (piper_voices (tts text key w).2 = piper_voices w1) as Hsame.
  { unfold tts_with_piper, bind, enter, extcall, lift, ret. simpl.
    rewrite Hget.
    destruct (synthesize_wav voice text _ (env w1)) as [[wav_file|e] e2];
      [|done].
    simpl. by destruct (wave_close _). }
  split; [done|]. rewrite Hsame. by eapply get_piper_voice_stores.
Qed.

(** X6.  With the voice of the key already cached, [tts_with_piper]
    loads nothing: it calls the engine with the cached voice and the
    writer it has set up, records the entry and that one call, leaves the
    cache as it is, and its result is what closing the writer the engine
    gave back yields, or the engine's fault. *)
Theorem tts_with_piper_cached
    (text key : pystr) (w : world) (voice : PiperVoice) :
  piper_voices w !! effective_key key = Some voice ->
  exists (r : outcome Wave_write) (e2 : Env),
    synthesize_wav voice text pcm_writer (env w) = (r, e2)
    /\ emitted [synthesize_wav_ev text (is_ok r); tts_with_piper_ev text key]
         w (tts text key w).2
    /\ piper_voices (tts text key w).2 = piper_voices w
    /\ env (tts text key w).2 = e2
    /\ (tts text key w).1 = obind r wave_close.
Proof.
  intros Hc.
  destruct (synthesize_wav voice text pcm_writer (env w)) as [r e2] eqn:Hsyn.
  exists r, e2. split; [done|].
  unfold tts_with_piper, bind, enter, lift, ret, emitted. simpl.
  rewrite (get_piper_voice_cached PiperVoice_load key
             (entered_tts w text key) voice) by done.
  unfold extcall. simpl. rewrite Hsyn.
  destruct r as [wav_file|e]; simpl; [|done].
  by destruct (wave_close _).
Qed.

Ltac explode_header_field width x H :=
  let Hv := fresh "Hv" in
  let Hl := fresh "Hl" in
  pose proof (le_value_le_bytes_small width x H) as Hv;
  pose proof (le_bytes_length width x) as Hl;
  destruct (le_bytes width x) as [|? [|? [|? [|? [|? ?]]]]];
  try discriminate Hl; clear Hl.

Lemma wave_close_fields (f : Wave_write) (wav : bytes) :
  wave_close f = Ok wav ->
  wav_riff_size wav = N.of_nat (length wav) - 8
  /\ wav_byte_rate wav = nchannels f * framerate f * sampwidth f
  /\ wav_block_align wav = nchannels f * sampwidth f.
Proof.
  intros Hclose.
  destruct (wave_close_parse f wav Hclose) as (_ & Hlen & _).
  rewrite Hlen. clear Hlen. revert Hclose.
  destruct f as [nch sw fr data]. cbn [nchannels sampwidth framerate datawritten].
  intros (-> & H1 & H2 & H3 & H4 & H5 & H6 & _)%wave_close_layout.
  rewrite Nat2N.inj_add. change (N.of_nat 44) with 44.
  assert (N.of_nat (length data) < 4294967296) as H7 by lia.
  revert H1 H7. generalize (N.of_nat (length data)). intros n H1 H7.
  explode_header_field 4%nat (36 + n) H1.
  explode_header_field 2%nat nch H2.
  explode_header_field 4%nat fr H3.
  explode_header_field 4%nat (nch * fr * sw) H4.
  explode_header_field 2%nat (nch * sw) H5.
  explode_header_field 2%nat (sw * 8) H6.
  explode_header_field 4%nat n H7.
  repeat match goal with
         | |- context [list_byte_of_string ?t] =>
             let v := eval vm_compute in (list_byte_of_string t) in
             change (list_byte_of_string t) with v
         end.
  cbn [app le_bytes].
  unfold wav_riff_size, wav_byte_rate, wav_block_align, slice.
  cbn [firstn skipn take drop].
  repeat match goal with
         | H : le_value _ = _ |- _ => rewrite ?H; clear H
         end.
  split; [lia|]. split; reflexivity.
Qed.

(** X7.  The WAV file [tts_with_piper] returns is consistent as a
    container, whatever format the engine left the writer with: it parses
    as a PCM file, its RIFF size field is the length of the file less 8,
    its data size field the length less the 44 bytes of the header, and
    its byte rate and block alignment are those of the channels, sample
    rate and bits per sample it states. *)
Theorem tts_with_piper_container
    (text key : pystr) (w w' : world) (wav : bytes) :
  tts text key w = (Ok wav, w') ->
  exists info : wav_info,
    parse_wav wav = Some info
    /\ wav_riff_size wav = N.of_nat (length wav) - 8
    /\ wav_data_size info = N.of_nat (length wav) - 44
    /\ wav_data info = drop 44 wav
    /\ wav_byte_rate wav * 8
       = wav_channels info * wav_sample_rate info * wav_bits_per_sample info
    /\ wav_block_align wav * 8 = wav_channels info * wav_bits_per_sample info
    /\ (44 <= length wav)%nat
    /\ N.of_nat (length wav) < 4294967304.
Proof.
  intros H.
  apply (tts_with_piper_ok PiperVoice_load synthesize_wav) in H
    as (voice & w1 & wav_file & _ & _ & Hwav & _).
  destruct (wave_close_fields wav_file wav Hwav) as (H1 & H2 & H3).
  destruct (wave_close_parse wav_file wav Hwav) as (Hfits & Hlen & Hdrop & Hparse).
  eexists. split; [exact Hparse|]. cbn [wav_data_size wav_data wav_channels
    wav_sample_rate wav_bits_per_sample].
  rewrite H2, H3, Hdrop, Hlen, Nat2N.inj_add. change (N.of_nat 44) with 44.
  split; [rewrite H1, Hlen, Nat2N.inj_add; change (N.of_nat 44) with 44; lia|].
  repeat split; try lia.
Qed.

(* ------------------------------------------------------------------- *)
(*  Grammar correction                                                 *)
(* ------------------------------------------------------------------- *)

(** X8.  [correct_grammar] consults LanguageTool only for its own
    language: the English tool for the key "en", the German tool for
    "de", always on the text it was given, and at most once;
    [utils.correct] is called only after a check that returned, and at
    most once. *)
Theorem correct_grammar_tool (text : pystr) (key : option pystr) (w : world) :
  exists evs,
    emitted (evs ++ [correct_grammar_ev text key]) w (correct text key w).2
    /\ (forall tool t ok,
          In (lt_check_ev tool t ok) evs -> tool_of_key tool key /\ t = text)
    /\ (forall t ok,
          In (lt_correct_ev t ok) evs ->
          t = text /\ exists tool, In (lt_check_ev tool text true) evs)
    /\ (forall c, (calls c evs <= 1)%nat)
    /\ Forall (fun ev => callee_of ev = lt_check_c \/ callee_of ev = lt_correct_c)
         evs.
Proof using Type.
  clear unicode_lower audio_read tempfile_write whisper_transcribe
    PiperVoice_load synthesize_wav render_error.
  unfold_run. cbn [fst snd trace env piper_voices].
  repeat case_bool_decide; split_run; give_events.
  all: split; [simpl; intros tool t ok Hin;
               intuition (simplify_eq; simpl; auto)|].
  all: split; [simpl; intros t ok Hin;
               intuition (simplify_eq; simpl; eauto)|].
  all: split; [intros c; destruct c; vm_compute; lia|].
  all: repeat (apply List.Forall_cons; [simpl; auto|]); apply List.Forall_nil.
Qed.

(* ------------------------------------------------------------------- *)
(*  Endpoint                                                           *)
(* ------------------------------------------------------------------- *)

Lemma body_ok_shape (email : pystr) (audio : UploadFile) (w w' : world)
    (r : HTTPResponse) :
  body email audio w = (Ok r, w') ->
  (exists text raw,
      resolve raw = None /\ r = JSONResponse 200 (text_only_body text raw))
  \/ (exists wav raw k corrected,
        resolve raw = Some k
        /\ r = Response wav (py "audio/wav") (audio_headers k corrected)).
Proof.
  unfold upload_audio_body, bind at 1, extcall.
  destruct (audio_read audio (env w)) as [[b|e] e1]; [|done]. simpl.
  unfold bind at 1.
  destruct (stt b _) as [[[text raw]|e] w2]; [|done]. simpl.
  destruct (resolve raw) as [k|] eqn:Hres.
  - unfold bind at 1.
    destruct (correct text (Some k) w2) as [[corrected|e] w3]; [|done].
    unfold bind at 1.
    destruct (tts corrected k w3) as [[wav|e] w4]; [|done].
    unfold ret. intros [= <- _]. right. exists wav, raw, k, corrected.
    split; [done|]. unfold audio_headers. by destruct (isascii corrected).
  - unfold lift. intros [= H _].
    apply (new_json_shape render_error) in H as ->. left. by exists text, raw.
Qed.

(** X9.  An answer of the endpoint has status 200 or 500, and 500 exactly
    when the body of the try block raised.  An audio answer has media type
    audio/wav and carries a key the gate returned; a JSON answer of status
    200 is the text-only object for a raw language the gate rejected. *)
Theorem upload_audio_status
    (email : pystr) (audio : UploadFile) (w w' : world) (r : HTTPResponse) :
  upload email audio w = (Ok r, w') ->
  (status_of r = 200 \/ status_of r = 500)
  /\ (status_of r = 500 <-> exists e, (body email audio w).1 = Raise e)
  /\ (forall content media_type headers,
        r = Response content media_type headers ->
        media_type = py "audio/wav"
        /\ exists raw k, resolve raw = Some k
                         /\ headers !! py "X-Detected-Lang" = Some k)
  /\ (forall content,
        r = JSONResponse 200 content ->
        exists text raw, resolve raw = None /\ content = text_only_body text raw).
Proof.
  unfold upload_audio, try_except.
  destruct (body email audio w) as [[r0|e] w0] eqn:Hbody; simpl.
  - intros [= -> ->].
    destruct (body_ok_shape _ _ _ _ _ Hbody)
      as [(text & raw & Hres & ->)|(wav & raw & k & corrected & Hres & ->)];
      simpl.
    + split; [by left|]. split; [split; [done | by intros [e [=]]]|].
      split; [done|]. intros content [= <-]. by exists text, raw.
    + split; [by left|]. split; [split; [done | by intros [e [=]]]|].
      split; [|done]. intros content media_type headers [= <- <- <-].
      split; [done|]. exists raw, k. split; [done|].
      apply audio_headers_lang.
  - unfold lift. intros [= H <-].
    apply (new_json_shape render_error) in H as ->. simpl.
    split; [by right|]. split; [split; [by eexists | done]|].
    split; done.
Qed.

(** X10.  Every entry of the headers the endpoint hands to [Response] for
    an audio answer is X-Detected-Lang or X-Corrected-Text, and its name
    and its value are pure ASCII. *)
Theorem upload_audio_headers_ascii
    (email : pystr) (audio : UploadFile) (w w' : world)
    (content : bytes) (media_type : pystr) (headers : gmap pystr pystr) :
  upload email audio w = (Ok (Response content media_type headers), w') ->
  forall name value,
    headers !! name = Some value ->
    (name = py "X-Detected-Lang" \/ name = py "X-Corrected-Text")
    /\ isascii name = true /\ isascii value = true.
Proof.
  unfold upload_audio, try_except.
  destruct (body email audio w) as [[r0|e] w0] eqn:Hbody; simpl.
  2:{ unfold lift. intros [= H _].
      by apply (new_json_shape render_error) in H. }
  intros [= -> ->].
  destruct (body_ok_shape _ _ _ _ _ Hbody)
    as [(text & raw & Hres & [=])|(wav & raw & k & corrected & Hres & [= _ _ ->])].
  assert (isascii k = true) as Hk
    by (destruct (resolve_key_cases raw k Hres) as [-> | [-> | ->]]; reflexivity).
  intros name value. unfold audio_headers.
  destruct (isascii corrected) eqn:Hc.
  - rewrite lookup_insert_Some, lookup_singleton_Some.
    intros [[<- <-]|[_ [<- <-]]]; auto.
  - rewrite lookup_singleton_Some. intros [<- <-]. auto.
Qed.


(** X12.  When the service gives no language, or an empty one, the
    request is treated as English: the gate returns "en", the answer is
    never the text-only JSON object, and [correct_grammar] is entered with
    the key "en" and consults the English tool. *)
Theorem upload_audio_missing_language
    (email : pystr) (audio : UploadFile) (w : world) (b : bytes)
    (tmp_path : pystr) (r : WhisperResult) (e1 e2 e3 : Env) :
  audio_read audio (env w) = (Ok b, e1) ->
  tempfile_write b e1 = (Ok tmp_path, e2) ->
  whisper_transcribe tmp_path e2 = (Ok r, e3) ->
  result_language r = None \/ result_language r = Some [] ->
  resolve (dict_get (result_language r) (py "en")) = Some (py "en")
  /\ (forall content, (upload email audio w).1 <> Ok (JSONResponse 200 content))
  /\ exists evs ok,
       emitted evs w (upload email audio w).2
       /\ In (correct_grammar_ev (strip (dict_get (result_text r) (py "")))
                (Some (py "en"))) evs
       /\ In (lt_check_ev lt_tool_en (strip (dict_get (result_text r) (py ""))) ok)
            evs.
Proof.
  intros H1 H2 H3 Hlang.
  assert (resolve (dict_get (result_language r) (py "en")) = Some (py "en"))
    as Hres by (destruct Hlang as [-> | ->]; reflexivity).
  split; [done|].
  unfold_run. cbn [fst snd trace env piper_voices].
  rewrite H1. cbn [fst snd trace env piper_voices is_ok].
  rewrite H2. cbn [fst snd trace env piper_voices is_ok].
  rewrite H3. cbn [fst snd trace env piper_voices is_ok].
  rewrite Hres.
  rewrite (bool_decide_eq_true_2 (Some (py "en") = Some (py "en"))) by done.
  split_run.
  all: split; [done|].
  all: first [ (eexists [_; _; _; _; _], _; split; [reflexivity|])
             | (eexists [_; _; _; _; _; _], _; split; [reflexivity|])
             | (eexists [_; _; _; _; _; _; _], _; split; [reflexivity|])
             | (eexists [_; _; _; _; _; _; _; _], _; split; [reflexivity|])
             | (eexists [_; _; _; _; _; _; _; _; _], _; split; [reflexivity|]) ].
  all: split; simpl; eauto 12.
Qed.

End Further.

(* ===================================================================== *)
(*  The further properties at work on the concrete deployment            *)
(* ===================================================================== *)

Lemma detect_lang_for_tts_configured_witness :
  effective_key (py "de") = py "de"
  /\ detect_lang_for_tts Demo.unicode_lower (py "tr") = Some (py "tr").
Proof.
  destruct (detect_lang_for_tts_configured Demo.unicode_lower) as [Hrange Hfix].
  split.
  - destruct (Hrange (py "DE-at") (py "de")) as (_ & Heff & _);
      [reflexivity | exact Heff].
  - apply Hfix. eexists. vm_compute. reflexivity.
Defined.

Lemma stt_with_whisper_trims_witness :
  exists text raw pre post : pystr,
    (Demo.stt_with_whisper Demo.heard_no_language [x1a; x45; xdf; xa3]
       Demo.start).1 = Ok (text, raw)
    /\ py "  hello there  " = pre ++ text ++ post
    /\ all_space pre /\ all_space post.
Proof.
  destruct (stt_with_whisper_trims Demo.tempfile_write
              (Demo.whisper_transcribe Demo.heard_no_language)
              [x1a; x45; xdf; xa3] Demo.start (py "/tmp/tmp0.webm")
              Demo.heard_no_language 1 1)
    as (text & raw & pre & post & Hrun & Hsplit & Hpre & Hpost & _).
  - reflexivity.
  - reflexivity.
  - by exists text, raw, pre, post.
Defined.

Lemma reachable_cache_bounded_witness :
  (size (piper_voices (Demo.get_piper_voice (py "tr") Demo.start).2) <= 3)%nat.
Proof.
  apply (reachable_cache_bounded
           Demo.unicode_lower Demo.audio_read Demo.tempfile_write
           (Demo.whisper_transcribe Demo.heard_en) Demo.lt_check
           (Demo.lt_utils_correct (py "I have an apple"))
           Demo.PiperVoice_load Demo.synthesize_wav Demo.render_error).
  exists 1. eapply rtc_l; [apply step_get | apply rtc_refl].
Defined.

Lemma piper_voices_written_by_get_only_witness :
  piper_voices (Demo.get_piper_voice (py "tr") Demo.start).2 !! py "en" = None
  /\ piper_voices (Demo.get_piper_voice (py "tr") Demo.start).2 !! py "tr"
     = Some 1
  /\ piper_voices (Demo.get_piper_voice (py "tr") Demo.start_missing).2 = ∅.
Proof.
  destruct (@piper_voices_written_by_get_only N N unit
              Demo.tempfile_write (Demo.whisper_transcribe Demo.heard_en)
              Demo.lt_check (Demo.lt_utils_correct (py "I have an apple"))
              Demo.PiperVoice_load)
    as (_ & _ & Hframe & Hstore & Hraise).
  split; [|split].
  - apply (Hframe (py "tr") (py "en") Demo.start).
    intros H. vm_compute in H. discriminate H.
  - apply (Hstore (py "tr") Demo.start 1). vm_compute. reflexivity.
  - apply (Hraise (py "tr") Demo.start_missing
             (mkException (py "FileNotFoundError")
                (py "models/tr_TR-fettah-medium.onnx"))).
    vm_compute. reflexivity.
Defined.

Lemma tts_with_piper_keeps_voice_witness :
  (DemoFaults.tts_with_piper (py "hello") (py "en") Demo.start).1
  = Raise DemoFaults.engine_fault
  /\ piper_voices (DemoFaults.tts_with_piper (py "hello") (py "en") Demo.start).2
       !! effective_key (py "en") = Some 1.
Proof.
  split; [vm_compute; reflexivity|].
  apply (tts_with_piper_keeps_voice Demo.PiperVoice_load
           DemoFaults.synthesize_wav (py "hello") (py "en") Demo.start
           (Demo.get_piper_voice (py "en")
              (mkWorld 1 ∅ [tts_with_piper_ev (py "hello") (py "en")])).2 1).
  vm_compute. reflexivity.
Defined.

Lemma tts_with_piper_cached_witness :
  exists (r : outcome Wave_write) (e2 : N),
    emitted [synthesize_wav_ev (py "hello") (is_ok r);
             tts_with_piper_ev (py "hello") (py "en")]
      (Demo.get_piper_voice (py "en") Demo.start).2
      (Demo.tts_with_piper (py "hello") (py "en")
         (Demo.get_piper_voice (py "en") Demo.start).2).2
    /\ piper_voices
         (Demo.tts_with_piper (py "hello") (py "en")
            (Demo.get_piper_voice (py "en") Demo.start).2).2
       = piper_voices (Demo.get_piper_voice (py "en") Demo.start).2.
Proof.
  destruct (tts_with_piper_cached Demo.PiperVoice_load Demo.synthesize_wav
              (py "hello") (py "en")
              (Demo.get_piper_voice (py "en") Demo.start).2 1)
    as (r & e2 & _ & Hev & Hcache & _).
  - vm_compute. reflexivity.
  - exists r, e2. split; [exact Hev | exact Hcache].
Defined.

Lemma tts_with_piper_container_witness :
  exists (wav : bytes) (info : wav_info),
    (Demo.tts_with_piper (py "hello") (py "en") Demo.start).1 = Ok wav
    /\ parse_wav wav = Some info
    /\ wav_riff_size wav = N.of_nat (length wav) - 8
    /\ wav_byte_rate wav * 8
       = wav_channels info * wav_sample_rate info * wav_bits_per_sample info.
Proof.
  pose (out := Demo.tts_with_piper (py "hello") (py "en") Demo.start).
  pose (wav := match out.1 with Ok b => b | Raise _ => [] end).
  destruct (tts_with_piper_container Demo.PiperVoice_load Demo.synthesize_wav
              (py "hello") (py "en") Demo.start out.2 wav)
    as (info & Hparse & Hriff & _ & _ & Hrate & _).
  - vm_compute. reflexivity.
  - exists wav, info. split; [vm_compute; reflexivity|]. by repeat split.
Defined.

Lemma correct_grammar_tool_witness :
  exists evs,
    emitted (evs ++ [correct_grammar_ev (py "ich bin") (Some (py "de"))])
      Demo.start
      (Demo.correct_grammar (py "Ich bin") (py "ich bin") (Some (py "de"))
         Demo.start).2
    /\ forall tool t ok,
         In (lt_check_ev tool t ok) evs ->
         tool_of_key tool (Some (py "de")) /\ t = py "ich bin".
Proof.
  destruct (@correct_grammar_tool N N unit Demo.lt_check
              (Demo.lt_utils_correct (py "Ich bin"))
              (py "ich bin") (Some (py "de")) Demo.start)
    as (evs & Hev & Htool & _).
  exists evs. split; [exact Hev | exact Htool].
Defined.

Lemma upload_audio_status_witness :
  status_of (JSONResponse 500 (error_body Demo.missing_model)) = 500
  <-> exists e,
        (upload_audio_body Demo.Env Demo.PiperVoice Demo.UploadFile Demo.Matches
           Demo.unicode_lower Demo.audio_read Demo.tempfile_write
           (Demo.whisper_transcribe Demo.heard_en) Demo.lt_check
           (Demo.lt_utils_correct (py "I have an apple"))
           Demo.PiperVoice_load Demo.synthesize_wav Demo.render_error
           Demo.email Demo.audio Demo.start_missing).1 = Raise e.
Proof.
  destruct (upload_audio_status
              Demo.unicode_lower Demo.audio_read Demo.tempfile_write
              (Demo.whisper_transcribe Demo.heard_en) Demo.lt_check
              (Demo.lt_utils_correct (py "I have an apple"))
              Demo.PiperVoice_load Demo.synthesize_wav Demo.render_error
              Demo.email Demo.audio Demo.start_missing
              (Demo.upload_audio Demo.heard_en (py "I have an apple")
                 Demo.email Demo.audio Demo.start_missing).2
              (JSONResponse 500 (error_body Demo.missing_model)))
    as (_ & Hiff & _).
  - vm_compute. reflexivity.
  - exact Hiff.
Defined.

Lemma upload_audio_headers_ascii_witness :
  isascii (py "X-Corrected-Text") = true
  /\ isascii (py "I have an apple") = true.
Proof.
  pose (out := Demo.upload_audio Demo.heard_en (py "I have an apple")
                 Demo.email Demo.audio Demo.start).
  pose (content := match out.1 with
                   | Ok (Response c _ _) => c
                   | _ => []
                   end).
  pose (headers := match out.1 with
                   | Ok (Response _ _ h) => h
                   | _ => ∅
                   end).
  destruct (upload_audio_headers_ascii
              Demo.unicode_lower Demo.audio_read Demo.tempfile_write
              (Demo.whisper_transcribe Demo.heard_en) Demo.lt_check
              (Demo.lt_utils_correct (py "I have an apple"))
              Demo.PiperVoice_load Demo.synthesize_wav Demo.render_error
              Demo.email Demo.audio Demo.start out.2 content (py "audio/wav")
              headers)
    with (name := py "X-Corrected-Text") (value := py "I have an apple")
    as (_ & Hname & Hvalue).
  - vm_compute. reflexivity.
  - vm_compute. reflexivity.
  - split; [exact Hname | exact Hvalue].
Defined.


Lemma upload_audio_missing_language_witness :
  detect_lang_for_tts Demo.unicode_lower
    (dict_get (result_language Demo.heard_no_language) (py "en"))
  = Some (py "en")
  /\ forall content,
       (Demo.upload_audio Demo.heard_no_language (py "Hello there")
          Demo.email Demo.audio Demo.start).1
       <> Ok (JSONResponse 200 content).
Proof.
  destruct (upload_audio_missing_language
              Demo.unicode_lower Demo.audio_read Demo.tempfile_write
              (Demo.whisper_transcribe Demo.heard_no_language) Demo.lt_check
              (Demo.lt_utils_correct (py "Hello there"))
              Demo.PiperVoice_load Demo.synthesize_wav Demo.render_error
              Demo.email Demo.audio Demo.start [x1a; x45; xdf; xa3]
              (py "/tmp/tmp0.webm") Demo.heard_no_language 1 1 1)
    as (Hres & Hnot & _).
  - reflexivity.
  - reflexivity.
  - reflexivity.
  - left. reflexivity.
  - split; [exact Hres | exact Hnot].
Defined.
